(** * GeoPlot: the trajectory-to-GeoJSON renderer of [geoplot.py]

    A shallow embedding of [GeoPlot.__init__] and [GeoPlot.render] and the
    properties of the data reshaping they perform.

    Modelling conventions.
    - A Python [str] is a [string] whose characters are code points below 256.
    - The elements of arrays are integers ([Z]).  [render] does no
      arithmetic on the data values it moves, so floats would travel the same
      way; only their JSON text would differ.
    - An option value is [None], an int, a float or a str.  A float is known
      by what [render] can observe of it ([pyfloat]); its arithmetic is not
      interpreted.
    - A raised exception is the [Raise] branch of [result]; statements run in
      the order of the source, so the first exception wins.
    - A [pd.Timestamp] is its number of nanoseconds since the epoch (UTC), a
      [pd.Timedelta] its number of nanoseconds; both are 64-bit, and pandas
      raises where a value would leave that range.
    - The wall clock and the file system form the [world] that [render]
      transforms.  Files are known by the path text handed to [open]; how the
      operating system resolves a path text to a file is not modelled. *)

From Stdlib Require Import ZArith String Ascii List DecimalString.
From stdpp Require Import base option list gmap strings.

Set Warnings "-register-all".

Local Open Scope string_scope.
Local Open Scope Z_scope.

(** ** Exceptions and the error monad *)

Inductive exn : Type :=
  | KeyError (key : string)
  | IndexError
  | TypeError
  | ValueError
  | LookupError
  | OutOfBoundsTimedelta
  | OutOfBoundsDatetime.

Inductive result (A : Type) : Type :=
  | Ok (a : A)
  | Raise (e : exn).
Arguments Ok {A} a.
Arguments Raise {A} e.

#[global] Instance result_ret : MRet result := fun A a => Ok a.
#[global] Instance result_bind : MBind result := fun A B f m =>
  match m with
  | Ok a => f a
  | Raise e => Raise e
  end.

#[global] Instance result_fmap : FMap result := fun A B f m =>
  match m with
  | Ok a => Ok (f a)
  | Raise e => Raise e
  end.

Definition raises {A} (m : result A) : Prop := exists e, m = Raise e.

(** A [for] loop whose body may raise: the loop state is threaded through the
    iterations and the first exception leaves the loop. *)
Fixpoint for_each {St X : Type} (body : St -> X -> result St) (xs : list X)
    (s : St) : result St :=
  match xs with
  | [] => Ok s
  | x :: rest => s' ← body s x; for_each body rest s'
  end.

(** ** Python values *)

(** A Python float, known by what [render] can observe of it: the text
    [str(x)], and for an int [i] the nanoseconds of
    [pd.Timedelta(seconds=i * x)] or the exception that expression raises. *)
Record pyfloat : Type := {
  float_str : string;
  float_timedelta : Z -> result Z;
}.

(** Values bound to configuration options. *)
Inductive pyobj : Type :=
  | ONone
  | OInt (z : Z)
  | OFloat (x : pyfloat)
  | OStr (s : string).

(** Values that [render] builds and serialises. *)
Inductive pyval : Type :=
  | PyNone
  | PyInt (z : Z)
  | PyStr (s : string)
  | PyList (items : list pyval)
  | PyDict (entries : list (string * pyval)).

(** [str(n)] for an int. *)
Definition str_int (z : Z) : string := NilZero.string_of_int (Z.to_int z).

(** [str(i)] for a loop index. *)
Definition str_nat (n : nat) : string := NilZero.string_of_uint (Nat.to_uint n).

(** The longest decimal text [str] makes of an int
    ([sys.get_int_max_str_digits()]). *)
Definition int_max_str_digits : nat := 4300.

(** [str(o)] as [Template.substitute] applies it to a mapping value; an int
    of more than [int_max_str_digits] digits raises [ValueError]. *)
Definition py_str (o : pyobj) : result string :=
  match o with
  | ONone => Ok "None"
  | OInt z =>
      if Nat.ltb int_max_str_digits (String.length (str_int (Z.abs z)))
      then Raise ValueError
      else Ok (str_int z)
  | OFloat x => Ok (float_str x)
  | OStr s => Ok s
  end.

Fixpoint string_nth (s : string) (n : nat) : option ascii :=
  match s, n with
  | EmptyString, _ => None
  | String c _, O => Some c
  | String _ rest, S n' => string_nth rest n'
  end.

Fixpoint assoc {V : Type} (d : list (string * V)) (k : string) : option V :=
  match d with
  | [] => None
  | (k', v) :: rest => if String.eqb k' k then Some v else assoc rest k
  end.

(** [o[i]] for a non-negative int [i]. *)
Definition getitem (o : pyval) (i : nat) : result pyval :=
  match o with
  | PyList items =>
      match items !! i with
      | Some v => Ok v
      | None => Raise IndexError
      end
  | PyStr s =>
      match string_nth s i with
      | Some c => Ok (PyStr (String c EmptyString))
      | None => Raise IndexError
      end
  | PyDict _ => Raise (KeyError (str_nat i))
  | PyNone | PyInt _ => Raise TypeError
  end.

Fixpoint chars (s : string) : list pyval :=
  match s with
  | EmptyString => []
  | String c rest => PyStr (String c EmptyString) :: chars rest
  end.

(** The items a [for] statement draws from [o]. *)
Definition iter (o : pyval) : result (list pyval) :=
  match o with
  | PyList items => Ok items
  | PyStr s => Ok (chars s)
  | PyDict entries => Ok (map (fun kv => PyStr (fst kv)) entries)
  | PyNone | PyInt _ => Raise TypeError
  end.

(** [enumerate(xs)] *)
Definition enumerate {X : Type} (xs : list X) : list (nat * X) :=
  zip (seq 0 (length xs)) xs.

(** [range(n)]: empty when [n] is not positive. *)
Definition range (n : Z) : list Z := map Z.of_nat (seq 0 (Z.to_nat n)).

(** ** numpy arrays *)

Inductive ndarray : Type :=
  | Scalar (x : Z)
  | Axis (items : list ndarray).

Fixpoint tolist (a : ndarray) : pyval :=
  match a with
  | Scalar x => PyInt x
  | Axis items => PyList (map tolist items)
  end.

(** The elements in row-major order. *)
Fixpoint ravel (a : ndarray) : list Z :=
  match a with
  | Scalar x => [x]
  | Axis items => concat (map ravel items)
  end.

Definition flatten (a : ndarray) : ndarray := Axis (map Scalar (ravel a)).

(** ** Timestamps *)

(** Nanoseconds since 1970-01-01T00:00:00 UTC. *)
Definition Timestamp : Type := Z.

(** The number of nanoseconds in a number of seconds. *)
Definition nanoseconds (seconds : Z) : Z := seconds * 1000000000.

Definition int64_min : Z := -9223372036854775808.
Definition int64_max : Z := 9223372036854775807.

(** [pd.Timedelta(seconds=s)] for an int [s], in nanoseconds: the value has
    to fit the 64 bits it is stored in. *)
Definition Timedelta (seconds : Z) : result Z :=
  if (int64_min <? nanoseconds seconds) && (nanoseconds seconds <=? int64_max)
  then Ok (nanoseconds seconds)
  else Raise OutOfBoundsTimedelta.

(** [timestamp + delta]: the 64-bit sum with its overflow check, upwards for
    a positive [delta] and downwards for a negative one.  The value
    [int64_min] is [NaT]. *)
Definition Timestamp_add (t : Timestamp) (delta : Z) : result Timestamp :=
  if (0 <? delta) && (int64_max <? t + delta)
     || (delta <? 0) && (t + delta <? int64_min)
  then Raise OutOfBoundsDatetime
  else Ok (t + delta).

(** [n] written in decimal and padded with zeros on the left to [width]
    digits ([f"{n:0{width}d}"] for a non-negative [n]). *)
Fixpoint zeros (n : nat) : string :=
  match n with
  | O => EmptyString
  | S n' => String "0" (zeros n')
  end.

Definition zfill (width : nat) (n : Z) : string :=
  let digits := str_int n in
  zeros (width - String.length digits) ++ digits.

(** The proleptic Gregorian date of a day number counted from the epoch. *)
Definition civil_from_days (days : Z) : Z * Z * Z :=
  let z := days + 719468 in
  let era := z / 146097 in
  let doe := z - era * 146097 in
  let yoe := (doe - doe / 1460 + doe / 36524 - doe / 146096) / 365 in
  let doy := doe - (365 * yoe + yoe / 4 - yoe / 100) in
  let mp := (5 * doy + 2) / 153 in
  let d := doy - (153 * mp + 2) / 5 + 1 in
  let m := if mp <? 10 then mp + 3 else mp - 9 in
  let y := yoe + era * 400 + (if m <=? 2 then 1 else 0) in
  (y, m, d).

(** [isoformat()] of a UTC-aware timestamp, or of [NaT]. *)
Definition isoformat (t : Timestamp) : string :=
  if t =? int64_min then "NaT" else
  let day_ns := 86400 * 1000000000 in
  let '(y, m, d) := civil_from_days (t / day_ns) in
  let secs := (t mod day_ns) / 1000000000 in
  let frac := (t mod day_ns) mod 1000000000 in
  let fraction :=
    if frac =? 0 then EmptyString
    else if frac mod 1000 =? 0 then "." ++ zfill 6 (frac / 1000)
    else "." ++ zfill 9 frac in
  zfill 4 y ++ "-" ++ zfill 2 m ++ "-" ++ zfill 2 d ++ "T"
  ++ zfill 2 (secs / 3600) ++ ":" ++ zfill 2 (secs / 60 mod 60) ++ ":"
  ++ zfill 2 (secs mod 60) ++ fraction ++ "+00:00".

(** ** JSON text ([json.dump], [json.dumps]) *)

Definition dquote : string := String (ascii_of_nat 34) EmptyString.

Definition hex_digit (n : nat) : ascii :=
  ascii_of_nat (if Nat.ltb n 10 then 48 + n else 87 + n)%nat.

(** [\u00XX] for a code point below 256. *)
Definition u_escape (n : nat) : string :=
  "\u00" ++ String (hex_digit (Nat.div n 16))
              (String (hex_digit (Nat.modulo n 16)) EmptyString).

Definition escape_char (ensure_ascii : bool) (c : ascii) : string :=
  let n := nat_of_ascii c in
  if Nat.eqb n 34 then "\" ++ dquote
  else if Nat.eqb n 92 then "\\"
  else if Nat.eqb n 10 then "\n"
  else if Nat.eqb n 13 then "\r"
  else if Nat.eqb n 9 then "\t"
  else if Nat.eqb n 8 then "\b"
  else if Nat.eqb n 12 then "\f"
  else if Nat.ltb n 32 then u_escape n
  else if ensure_ascii && Nat.ltb 126 n then u_escape n
  else String c EmptyString.

Fixpoint escape (ensure_ascii : bool) (s : string) : string :=
  match s with
  | EmptyString => EmptyString
  | String c rest => escape_char ensure_ascii c ++ escape ensure_ascii rest
  end.

Definition encode_basestring (ensure_ascii : bool) (s : string) : string :=
  dquote ++ escape ensure_ascii s ++ dquote.

Fixpoint spaces (n : nat) : string :=
  match n with
  | O => EmptyString
  | S n' => String " " (spaces n')
  end.

Definition newline : string := String (ascii_of_nat 10) EmptyString.

(** What separates an opening bracket, the items and the closing bracket at
    nesting depth [level]: nothing without [indent], a line break and
    [indent * level] spaces with it. *)
Definition newline_indent (indent : option nat) (level : nat) : string :=
  match indent with
  | None => EmptyString
  | Some n => newline ++ spaces (n * level)
  end.

Definition item_separator (indent : option nat) : string :=
  match indent with
  | None => ", "
  | Some _ => ","
  end.

Fixpoint join (sep : string) (parts : list string) : string :=
  match parts with
  | [] => EmptyString
  | [p] => p
  | p :: rest => p ++ sep ++ join sep rest
  end.

Definition bracketed (indent : option nat) (level : nat) (open close : string)
    (parts : list string) : string :=
  match parts with
  | [] => open ++ close
  | _ =>
      open ++ newline_indent indent (S level)
      ++ join (item_separator indent ++ newline_indent indent (S level)) parts
      ++ newline_indent indent level ++ close
  end.

Fixpoint encode (indent : option nat) (ensure_ascii : bool) (level : nat)
    (o : pyval) : string :=
  match o with
  | PyNone => "null"
  | PyInt z => str_int z
  | PyStr s => encode_basestring ensure_ascii s
  | PyList items =>
      bracketed indent level "[" "]"
        (List.map (encode indent ensure_ascii (S level)) items)
  | PyDict entries =>
      bracketed indent level "{" "}"
        (List.map (fun kv =>
                     encode_basestring ensure_ascii (fst kv) ++ ": "
                     ++ encode indent ensure_ascii (S level) (snd kv))
                  entries)
  end.

Definition json_dumps (indent : option nat) (ensure_ascii : bool) (o : pyval)
  : string :=
  encode indent ensure_ascii 0 o.

(** The bytes of a text written to a file opened with [encoding="utf-8"]. *)
Fixpoint utf8 (s : string) : string :=
  match s with
  | EmptyString => EmptyString
  | String c rest =>
      let n := nat_of_ascii c in
      if Nat.ltb n 128 then String c (utf8 rest)
      else String (ascii_of_nat (192 + Nat.div n 64))
             (String (ascii_of_nat (128 + Nat.modulo n 64)) (utf8 rest))
  end.

(** ** The page template and [string.Template] *)

(** HTML Template with embedded JavaScript using CesiumJS to render animated
    time-series data. *)
Definition geoplot_template : string :=
  "
<!doctype html>
<html lang=" ++ dquote ++ "en" ++ dquote ++ ">
<head>
  <meta charset=" ++ dquote ++ "UTF-8" ++ dquote ++ " />
  <meta name=" ++ dquote ++ "viewport" ++ dquote ++ " content=" ++ dquote ++ "width=device-width, initial-scale=1.0" ++ dquote ++ "/>
  <title>Cesium Time-Series Heatmap Visualization</title>
  <script src=" ++ dquote ++ "https://cesium.com/downloads/cesiumjs/releases/1.95/Build/Cesium/Cesium.js" ++ dquote ++ "></script>
  <link href=" ++ dquote ++ "https://cesium.com/downloads/cesiumjs/releases/1.95/Build/Cesium/Widgets/widgets.css" ++ dquote ++ " rel=" ++ dquote ++ "stylesheet" ++ dquote ++ "/>
  <style>
    #cesiumContainer {
      width: 100%;
      height: 100%;
    }
  </style>
</head>
<body>
  <div id=" ++ dquote ++ "cesiumContainer" ++ dquote ++ "></div>
  <script>
    Cesium.Ion.defaultAccessToken = '$accessToken'; // Access Token for Cesium

    const viewer = new Cesium.Viewer('cesiumContainer'); // Main Cesium viewer

    // Function to interpolate between two colors based on factor [0, 1]
    function interpolateColor(color1, color2, factor) {
      const result = new Cesium.Color();
      result.red = color1.red + factor * (color2.red - color1.red);
      result.green = color1.green + factor * (color2.green - color1.green);
      result.blue = color1.blue + factor * (color2.blue - color1.blue);
      result.alpha = '$visualType' == 'size' ? 0.2 : color1.alpha + factor * (color2.alpha - color1.alpha);
      return result;
    }

    // Maps numerical value to interpolated color between BLUE and RED
    function getColor(value, min, max) {
      const factor = (value - min) / (max - min);
      return interpolateColor(Cesium.Color.BLUE, Cesium.Color.RED, factor);
    }

    // Maps value to pixel size (used for 'size' visualization)
    function getPixelSize(value, min, max) {
      const factor = (value - min) / (max - min);
      return 100 * (1 + factor); // Scale between 100 to 200
    }

    // Process GeoJSON into time-based agent tracking dictionary
    function processTimeSeriesData(geoJsonData) {
      const timeSeriesMap = new Map();
      let minValue = Infinity;
      let maxValue = -Infinity;

      geoJsonData.features.forEach((feature) => {
        const id = feature.properties.id;
        const time = Cesium.JulianDate.fromIso8601(feature.properties.time);
        const value = feature.properties.value;
        const coordinates = feature.geometry.coordinates;

        if (!timeSeriesMap.has(id)) {
          timeSeriesMap.set(id, []);
        }
        timeSeriesMap.get(id).push({ time, value, coordinates });

        // Track global min/max for feature scaling
        minValue = Math.min(minValue, value);
        maxValue = Math.max(maxValue, value);
      });

      return { timeSeriesMap, minValue, maxValue };
    }

    // Create animated Cesium entities for each agent
    function createTimeSeriesEntities(timeSeriesData, startTime, stopTime) {
      const dataSource = new Cesium.CustomDataSource('AgentTorch Simulation');

      for (const [id, timeSeries] of timeSeriesData.timeSeriesMap) {
        const entity = new Cesium.Entity({
          id: id,
          availability: new Cesium.TimeIntervalCollection([
            new Cesium.TimeInterval({ start: startTime, stop: stopTime }),
          ]),
          position: new Cesium.SampledPositionProperty(),
          point: {
            pixelSize: '$visualType' == 'size' ? new Cesium.SampledProperty(Number) : 10,
            color: new Cesium.SampledProperty(Cesium.Color),
          },
          properties: {
            value: new Cesium.SampledProperty(Number),
          },
        });

        // Add time-based samples for each point
        timeSeries.forEach(({ time, value, coordinates }) => {
          const position = Cesium.Cartesian3.fromDegrees(coordinates[0], coordinates[1]);
          entity.position.addSample(time, position);
          entity.properties.value.addSample(time, value);
          entity.point.color.addSample(time, getColor(value, timeSeriesData.minValue, timeSeriesData.maxValue));
          if ('$visualType' == 'size') {
            entity.point.pixelSize.addSample(time, getPixelSize(value, timeSeriesData.minValue, timeSeriesData.maxValue));
          }
        });

        dataSource.entities.add(entity);
      }

      return dataSource;
    }

    // Initialize globe animation with GeoJSON data
    const geoJsons = $data;
    const start = Cesium.JulianDate.fromIso8601('$startTime');
    const stop = Cesium.JulianDate.fromIso8601('$stopTime');

    viewer.clock.startTime = start.clone();
    viewer.clock.stopTime = stop.clone();
    viewer.clock.currentTime = start.clone();
    viewer.clock.clockRange = Cesium.ClockRange.LOOP_STOP;
    viewer.clock.multiplier = 3600; // 1 hour per second
    viewer.timeline.zoomTo(start, stop);

    for (const geoJsonData of geoJsons) {
      const timeSeriesData = processTimeSeriesData(geoJsonData);
      const dataSource = createTimeSeriesEntities(timeSeriesData, start, stop);
      viewer.dataSources.add(dataSource);
      viewer.zoomTo(dataSource);
    }
  </script>
</body>
</html>
".

Definition is_id_start (c : ascii) : bool :=
  let n := nat_of_ascii c in
  Nat.eqb n 95 || (Nat.leb 97 n && Nat.leb n 122) || (Nat.leb 65 n && Nat.leb n 90).

Definition is_id_char (c : ascii) : bool :=
  let n := nat_of_ascii c in
  is_id_start c || (Nat.leb 48 n && Nat.leb n 57).

Definition is_dollar (c : ascii) : bool := Nat.eqb (nat_of_ascii c) 36.

(** Where the scan of a template stands: in plain text, just after a [$],
    inside [$name], just after [${], or inside [${name]. *)
Inductive scan : Type :=
  | Text
  | Dollar
  | Named (name : string)
  | BraceOpen
  | Braced (name : string).

(** [str(mapping[name])] *)
Definition mapping_get (mapping : list (string * pyobj)) (name : string)
  : result string :=
  match assoc mapping name with
  | Some v => py_str v
  | None => Raise (KeyError name)
  end.

Definition snoc (s : string) (c : ascii) : string := s ++ String c EmptyString.

(** [Template(template).substitute(mapping)]: [$$] is a dollar sign,
    [$name] and [${name}] are replaced by [mapping[name]] ([KeyError] when
    absent), any other [$] is a [ValueError]. *)
Fixpoint substitute_from (mapping : list (string * pyobj)) (st : scan)
    (template : string) : result string :=
  match template with
  | EmptyString =>
      match st with
      | Text => Ok EmptyString
      | Named name => mapping_get mapping name
      | Dollar | BraceOpen | Braced _ => Raise ValueError
      end
  | String c rest =>
      match st with
      | Text =>
          if is_dollar c then substitute_from mapping Dollar rest
          else r ← substitute_from mapping Text rest; Ok (String c r)
      | Dollar =>
          if is_dollar c then r ← substitute_from mapping Text rest; Ok (String c r)
          else if is_id_start c then substitute_from mapping (Named (String c EmptyString)) rest
          else if Nat.eqb (nat_of_ascii c) 123 then substitute_from mapping BraceOpen rest
          else Raise ValueError
      | Named name =>
          if is_id_char c then substitute_from mapping (Named (snoc name c)) rest
          else v ← mapping_get mapping name;
               r ← (if is_dollar c then substitute_from mapping Dollar rest
                    else r ← substitute_from mapping Text rest; Ok (String c r));
               Ok (v ++ r)
      | BraceOpen =>
          if is_id_start c then substitute_from mapping (Braced (String c EmptyString)) rest
          else Raise ValueError
      | Braced name =>
          if is_id_char c then substitute_from mapping (Braced (snoc name c)) rest
          else if Nat.eqb (nat_of_ascii c) 125
          then v ← mapping_get mapping name;
               r ← substitute_from mapping Text rest; Ok (v ++ r)
          else Raise ValueError
      end
  end.

Definition substitute (template : string) (mapping : list (string * pyobj))
  : result string :=
  substitute_from mapping Text template.

(** ** The engine *)

(** [config["simulation_metadata"]], with the three entries [render] reads. *)
Record simulation_metadata : Type := {
  name : string;
  num_episodes : Z;
  num_steps_per_episode : Z;
}.

Record GeoPlot : Type := {
  config : simulation_metadata;
  cesium_token : pyobj;
  step_time : pyobj;
  entity_position : pyobj;
  entity_property : pyobj;
  visualization_type : pyobj;
}.

(** [options[key]] *)
Definition option_get (options : gmap string pyobj) (key : string) : result pyobj :=
  match options !! key with
  | Some v => Ok v
  | None => Raise (KeyError key)
  end.

(** The right-hand tuple is evaluated from left to right before any
    attribute is bound. *)
Definition __init__ (config : simulation_metadata) (options : gmap string pyobj)
  : result GeoPlot :=
  cesium_token ← option_get options "cesium_token";
  step_time ← option_get options "step_time";
  coordinates ← option_get options "coordinates";
  feature ← option_get options "feature";
  visualization_type ← option_get options "visualization_type";
  Ok {| config := config;
        cesium_token := cesium_token;
        step_time := step_time;
        entity_position := coordinates;
        entity_property := feature;
        visualization_type := visualization_type |}.

Definition required_options : list string :=
  ["cesium_token"; "step_time"; "coordinates"; "feature"; "visualization_type"].

(** [re.split(sep, s)] for a one-character pattern. *)
Fixpoint re_split (sep : ascii) (s : string) : list string :=
  match s with
  | EmptyString => [EmptyString]
  | String c rest =>
      if Ascii.eqb c sep then EmptyString :: re_split sep rest
      else match re_split sep rest with
           | seg :: segs => String c seg :: segs
           | [] => [String c EmptyString]
           end
  end.

(** The local variables of [render] that its loops read and update. *)
Record locals : Type := Locals {
  coords : pyval;
  values : list pyval;
  timestamps : list Timestamp;
  geojsons : list pyval;
}.

(** The clock [pd.Timestamp.utcnow()] reads and the files [open] writes,
    each file under the path text [open] was given. *)
Record world : Type := World {
  clock : Timestamp;
  files : gmap string string;
}.

(** [open(path, "w")] creates or empties the file. *)
Definition open_w (path : string) (w : world) : world :=
  World (clock w) (<[path := EmptyString]> (files w)).

(** [f.write(text)] on a file just opened with [encoding="utf-8"]. *)
Definition write (path : string) (text : string) (w : world) : world :=
  World (clock w) (<[path := utf8 text]> (files w)).

(** [xs[-1]] *)
Definition last_item {X : Type} (xs : list X) : result X :=
  match last xs with
  | Some x => Ok x
  | None => Raise IndexError
  end.

(** [xs[i]] for a non-negative [i]. *)
Definition list_getitem {X : Type} (xs : list X) (i : nat) : result X :=
  match xs !! i with
  | Some x => Ok x
  | None => Raise IndexError
  end.

(** [start_time + pd.Timedelta(seconds=i * step_time)]: the interval exists
    for an int or a float [step_time] only, and both the interval and the sum
    have to stay in range. *)
Definition slot (start_time : Timestamp) (step_time : pyobj) (i : Z)
  : result Timestamp :=
  match step_time with
  | OInt s => delta ← Timedelta (i * s); Timestamp_add start_time delta
  | OFloat x => delta ← float_timedelta x i; Timestamp_add start_time delta
  | ONone | OStr _ => Raise TypeError
  end.

(** One [Feature], its dict literal evaluated in source order. *)
Definition feature (i : nat) (coord : pyval) (time : Timestamp) (value_list : pyval)
  : result pyval :=
  lon ← getitem coord 1;
  lat ← getitem coord 0;
  value ← getitem value_list i;
  Ok (PyDict
        [("type", PyStr "Feature");
         ("geometry",
          PyDict [("type", PyStr "Point"); ("coordinates", PyList [lon; lat])]);
         ("properties",
          PyDict [("id", PyStr (str_nat i));
                  ("value", value);
                  ("time", PyStr (isoformat time))])]).

Definition FeatureCollection (features : list pyval) : pyval :=
  PyDict [("type", PyStr "FeatureCollection"); ("features", PyList features)].

Section Render.

(** A state snapshot is opaque; [get_by_path] is the accessor of
    [agent_torch.core.helpers].  The value it finds is taken as the array
    [np.array] makes of it. *)
Context {State : Type}.
Variable get_by_path : State -> list string -> result ndarray.

(** Helper to extract nested variable using path like
    'agents/consumers/coordinates' *)
Definition read_var (state : State) (var : pyobj) : result ndarray :=
  match var with
  | OStr path => get_by_path state (re_split "/" path)
  | ONone | OInt _ | OFloat _ => Raise TypeError
  end.

(** Body of the loop over episodes: get the final step's coordinates and
    feature values of episode [i]. *)
Definition reduce_episode (self : GeoPlot) (state_trajectory : list (list State))
    (st : locals) (i : Z) : result locals :=
  episode ← list_getitem state_trajectory (Z.to_nat i);
  final_state ← last_item episode;
  position ← read_var final_state (entity_position self);
  property ← read_var final_state (entity_property self);
  Ok (Locals (tolist position)
             (values st ++ [tolist (flatten property)])%list
             (timestamps st) (geojsons st)).

Definition reduce_trajectory (self : GeoPlot) (state_trajectory : list (list State))
    (st : locals) : result locals :=
  for_each (reduce_episode self state_trajectory)
           (range (Z.of_nat (length state_trajectory) - 1)) st.

(** Generate timestamp list using configured step_time *)
Definition generate_timestamps (self : GeoPlot) (start_time : Timestamp)
    (st : locals) : result locals :=
  slots ← mapM (slot start_time (step_time self))
               (range (num_episodes (config self)
                       * num_steps_per_episode (config self)));
  Ok (Locals (coords st) (values st) slots (geojsons st)).

(** Body of the loop over [zip(timestamps, values)]. *)
Definition append_feature (i : nat) (coord : pyval) (features : list pyval)
    (pair : Timestamp * pyval) : result (list pyval) :=
  f ← feature i coord (fst pair) (snd pair);
  Ok (features ++ [f])%list.

(** Body of the loop over [enumerate(coords)]. *)
Definition append_collection (st : locals) (entity : nat * pyval)
  : result locals :=
  features ← for_each (append_feature (fst entity) (snd entity))
                      (zip (timestamps st) (values st)) [];
  Ok (Locals (coords st) (values st) (timestamps st)
             (geojsons st ++ [FeatureCollection features])%list).

(** Build GeoJSON format: list of FeatureCollections (one per agent) *)
Definition build_geojsons (st : locals) : result locals :=
  entities ← iter (coords st);
  for_each append_collection (enumerate entities)
           (Locals (coords st) (values st) (timestamps st) []).

Definition initial_locals : locals := Locals (PyList []) [] [] [].

(** Everything [render] computes before it opens a file. *)
Definition reshape (self : GeoPlot) (state_trajectory : list (list State))
    (start_time : Timestamp) : result locals :=
  st ← reduce_trajectory self state_trajectory initial_locals;
  st ← generate_timestamps self start_time st;
  build_geojsons st.

Definition geodata_path (self : GeoPlot) : string := name (config self) ++ ".geojson".
Definition geoplot_path (self : GeoPlot) : string := name (config self) ++ ".html".

(** The mapping handed to [substitute], its entries evaluated in order. *)
Definition page_mapping (self : GeoPlot) (st : locals)
  : result (list (string * pyobj)) :=
  first ← list_getitem (timestamps st) 0;
  final ← last_item (timestamps st);
  Ok [("accessToken", cesium_token self);
      ("startTime", OStr (isoformat first));
      ("stopTime", OStr (isoformat final));
      ("data", OStr (json_dumps None true (PyList (geojsons st))));
      ("visualType", visualization_type self)].

(** Render the entire trajectory into .geojson and .html output files. *)
Definition render (self : GeoPlot) (state_trajectory : list (list State))
    (w : world) : world * result unit :=
  match reshape self state_trajectory (clock w) with
  | Raise e => (w, Raise e)
  | Ok st =>
      let w := write (geodata_path self)
                 (json_dumps (Some 2%nat) false (PyList (geojsons st)))
                 (open_w (geodata_path self) w) in
      let w := open_w (geoplot_path self) w in
      match page_mapping self st ≫= substitute geoplot_template with
      | Raise e => (w, Raise e)
      | Ok page => (write (geoplot_path self) page w, Ok tt)
      end
  end.

End Render.

Arguments read_var {State} get_by_path state var.
Arguments reduce_episode {State} get_by_path self state_trajectory st i.
Arguments reduce_trajectory {State} get_by_path self state_trajectory st.
Arguments reshape {State} get_by_path self state_trajectory start_time.
Arguments render {State} get_by_path self state_trajectory w.

(** ** A concrete snapshot *)

(** A nested mapping with arrays at its leaves. *)
Inductive snapshot : Type :=
  | Leaf (a : ndarray)
  | Mapping (entries : list (string * snapshot)).

(** Modelled from the spec: [get_by_path] of [agent_torch.core.helpers],
    which is not part of this file.  It returns the nested value reachable by
    following the segments and fails with a lookup error if a segment is
    absent or the snapshot cannot be traversed at that point; a path that
    stops on a mapping finds no array. *)
Fixpoint snapshot_get_by_path (state : snapshot) (path : list string)
  : result ndarray :=
  match path, state with
  | [], Leaf a => Ok a
  | [], Mapping _ => Raise LookupError
  | _ :: _, Leaf _ => Raise LookupError
  | seg :: rest, Mapping entries =>
      match assoc entries seg with
      | Some child => snapshot_get_by_path child rest
      | None => Raise LookupError
      end
  end.

Definition matrix (rows : list (list Z)) : ndarray :=
  Axis (map (fun row => Axis (map Scalar row)) rows).

(** A snapshot of consumers with the given coordinates and money spent. *)
Definition consumers (coordinates : list (list Z)) (money_spent : list Z)
  : snapshot :=
  Mapping
    [("agents",
      Mapping
        [("consumers",
          Mapping [("coordinates", Leaf (matrix coordinates));
                   ("money_spent", Leaf (matrix (map (fun x => [x]) money_spent)))])])].

Definition demo_engine (step : pyobj) (episodes steps : Z) : GeoPlot :=
  {| config := {| name := "demo"; num_episodes := episodes;
                  num_steps_per_episode := steps |};
     cesium_token := OStr "token";
     step_time := step;
     entity_position := OStr "agents/consumers/coordinates";
     entity_property := OStr "agents/consumers/money_spent";
     visualization_type := OStr "color" |}.

(** Three episodes of one step each; the last one is not read. *)
Definition demo_trajectory : list (list snapshot) :=
  [[consumers [[1; 2]; [3; 4]] [10; 20]];
   [consumers [[1; 2]; [3; 4]] [30; 40]];
   [consumers [[1; 2]; [3; 4]] [50; 60]]].

Definition point_feature (id : string) (lon lat value : Z) (time : string) : pyval :=
  PyDict
    [("type", PyStr "Feature");
     ("geometry",
      PyDict [("type", PyStr "Point"); ("coordinates", PyList [PyInt lon; PyInt lat])]);
     ("properties",
      PyDict [("id", PyStr id); ("value", PyInt value); ("time", PyStr time)])].

(** ** Vocabulary of the properties *)

(** [o[k1][k2]...] through nested dicts. *)
Fixpoint field (keys : list string) (o : pyval) : option pyval :=
  match keys with
  | [] => Some o
  | k :: rest =>
      match o with
      | PyDict entries =>
          match assoc entries k with
          | Some v => field rest v
          | None => None
          end
      | _ => None
      end
  end.

(** The [features] of a FeatureCollection. *)
Definition features_of (collection : pyval) : option (list pyval) :=
  match field ["features"] collection with
  | Some (PyList features) => Some features
  | _ => None
  end.

(** The position array has (at least) a latitude and a longitude for every
    entity, and every feature vector that meets a timestamp has a value for
    every entity. *)
Definition well_shaped (rows values : list pyval) (timestamps : list Timestamp)
  : Prop :=
  (forall row, row ∈ rows ->
     (exists lat, getitem row 0 = Ok lat) /\ (exists lon, getitem row 1 = Ok lon))
  /\ (forall j t value_list i,
        timestamps !! j = Some t -> values !! j = Some value_list ->
        (i < length rows)%nat ->
        exists v, getitem value_list i = Ok v).

(** An episode [render] can reduce: it has a final step, and both configured
    paths lead to arrays in that step's snapshot. *)
Definition reads {State : Type} (get_by_path : State -> list string -> result ndarray)
    (self : GeoPlot) (episode : list State) (position property : ndarray) : Prop :=
  exists final_state,
    last episode = Some final_state
    /\ read_var get_by_path final_state (entity_position self) = Ok position
    /\ read_var get_by_path final_state (entity_property self) = Ok property.

(** An array of [E] entities with two coordinates each. *)
Definition position_array (E : nat) (a : ndarray) : Prop :=
  exists rows : list (Z * Z),
    length rows = E
    /\ a = Axis (map (fun p => Axis [Scalar (fst p); Scalar (snd p)]) rows).

(** A valid trajectory with [E] entities: at least two episodes, and every
    episode but the last ends in a snapshot that holds a position array of
    [E] entities and a feature array of [E] scalars. *)
Definition valid_trajectory {State : Type}
    (get_by_path : State -> list string -> result ndarray) (self : GeoPlot)
    (state_trajectory : list (list State)) (E : nat) : Prop :=
  (2 <= length state_trajectory)%nat
  /\ forall i episode,
       (i < length state_trajectory - 1)%nat ->
       state_trajectory !! i = Some episode ->
       exists position property,
         reads get_by_path self episode position property
         /\ position_array E position
         /\ length (ravel property) = E.

(** The claim that any short feature vector makes the builder raise. *)
Definition any_short_vector_raises : Prop :=
  forall (rows values : list pyval) (timestamps : list Timestamp)
         (j : nat) (items : list pyval),
    values !! j = Some (PyList items) ->
    (length items < length rows)%nat ->
    raises (build_geojsons (Locals (PyList rows) values timestamps [])).

(** Time passing between two calls. *)
Definition elapse (seconds : Z) (w : world) : world :=
  World (clock w + nanoseconds seconds) (files w).

(** The claim that a second [render] of the same trajectory by the same
    engine, with nothing else touching the files, leaves the same bytes in
    the .geojson file as the first. *)
Definition render_twice_identical : Prop :=
  forall (State : Type) (get_by_path : State -> list string -> result ndarray)
         (self : GeoPlot) (state_trajectory : list (list State))
         (w : world) (seconds : Z),
    0 <= seconds ->
    let w1 := fst (render get_by_path self state_trajectory w) in
    let w2 := fst (render get_by_path self state_trajectory (elapse seconds w1)) in
    files w1 !! geodata_path self = files w2 !! geodata_path self.

(** What the builder returns for one entity and for all of them. *)
Definition collection_for (timestamps : list Timestamp) (values : list pyval)
    (entity : nat * pyval) (doc : pyval) : Prop :=
  exists features,
    doc = FeatureCollection features
    /\ Forall2 (fun pair f => feature (fst entity) (snd entity) (fst pair) (snd pair) = Ok f)
               (zip timestamps values) features.

Definition is_Ok {A} (m : result A) : bool :=
  match m with
  | Ok _ => true
  | Raise _ => false
  end.

(** [well_shaped], decided. *)
Definition well_shapedb (rows values : list pyval) (timestamps : list Timestamp)
  : bool :=
  forallb (fun row => is_Ok (getitem row 0) && is_Ok (getitem row 1)) rows
  && forallb (fun pair =>
                forallb (fun i => is_Ok (getitem (snd pair) i))
                        (seq 0 (length rows)))
             (zip timestamps values).

(** ** Inputs of the worked examples *)

Definition demo_rows : list pyval :=
  [PyList [PyInt 1; PyInt 2]; PyList [PyInt 3; PyInt 4]].
Definition demo_values : list pyval :=
  [PyList [PyInt 10; PyInt 20]; PyList [PyInt 30; PyInt 40]].
Definition demo_slots : list Timestamp := [0; nanoseconds 3600; nanoseconds 7200].

Definition fresh_world : world := World 0 ∅.
Definition stale_world : world := World 0 (<["demo.geojson" := "stale"]> ∅).

(** A single episode of one step. *)
Definition short_trajectory : list (list snapshot) := [[consumers [[1; 2]] [10]]].

Definition partial_options : gmap string pyobj :=
  <["cesium_token" := OStr "token"]> (<["feature" := OStr "agents/x"]> ∅).

Definition odd_options : gmap string pyobj :=
  <["cesium_token" := ONone]>
    (<["step_time" := OInt 0]>
       (<["coordinates" := OStr "agents/consumers/coordinates"]>
          (<["feature" := OStr "agents/consumers/money_spent"]>
             (<["visualization_type" := OStr "heat"]> ∅)))).

(** ** Vocabulary of the further properties *)

(** Whether the character [c] occurs in [s]. *)
Fixpoint occurs (c : ascii) (s : string) : bool :=
  match s with
  | EmptyString => false
  | String c' rest => Ascii.eqb c' c || occurs c rest
  end.

(** The FeatureCollection of one entity, as a function of what the builder
    reads. *)
Definition collection (timestamps : list Timestamp) (values : list pyval)
    (entity : nat * pyval) : result pyval :=
  features ← mapM (fun pair => feature (fst entity) (snd entity) (fst pair) (snd pair))
                  (zip timestamps values);
  Ok (FeatureCollection features).

(** The number of configured timestamp slots. *)
Definition slots_of (self : GeoPlot) : Z :=
  num_episodes (config self) * num_steps_per_episode (config self).

(** Every configured timestamp can be computed from [start_time]: the step
    is a number, and every interval and every sum stays in range. *)
Definition slots_exist (self : GeoPlot) (start_time : Timestamp) : Prop :=
  forall i, 0 <= i < slots_of self ->
    exists t, slot start_time (step_time self) i = Ok t.

(** The text [str] makes of an option value, when it makes one. *)
Definition printable (o : pyobj) : Prop := exists text, py_str o = Ok text.


(** The claim that every valid trajectory gives a document of [E]
    FeatureCollections of min(T, episodes - 1) Features each, whatever the
    engine's step. *)
Definition every_valid_trajectory_is_counted : Prop :=
  forall (State : Type) (get_by_path : State -> list string -> result ndarray)
         (self : GeoPlot) (state_trajectory : list (list State))
         (start_time : Timestamp) (E T : nat),
    valid_trajectory get_by_path self state_trajectory E ->
    slots_of self = Z.of_nat T ->
    exists st,
      reshape get_by_path self state_trajectory start_time = Ok st
      /\ length (geojsons st) = E
      /\ forall doc, doc ∈ geojsons st ->
           exists features,
             features_of doc = Some features
             /\ length features = Nat.min T (length state_trajectory - 1).

(** The claim that a render of fewer than two episodes never fails when
    there is a configured timestamp slot, whatever the engine holds. *)
Definition short_trajectory_never_fails : Prop :=
  forall (State : Type) (get_by_path : State -> list string -> result ndarray)
         (self : GeoPlot) (state_trajectory : list (list State)) (w : world),
    (length state_trajectory <= 1)%nat ->
    0 < slots_of self ->
    snd (render get_by_path self state_trajectory w) = Ok tt
    /\ files (fst (render get_by_path self state_trajectory w)) !! geodata_path self
       = Some "[]".

(** An engine whose second timestamp is 10^10 seconds after the first, more
    than 64 bits of nanoseconds hold. *)
Definition overflow_engine : GeoPlot := demo_engine (OInt 10000000000) 2 1.

(** The demo trajectory with more steps in its episodes and another last
    episode. *)
Definition demo_trajectory_longer : list (list snapshot) :=
  [[consumers [[7; 7]] [0]; consumers [[1; 2]; [3; 4]] [10; 20]];
   [consumers [] []; consumers [] []; consumers [[1; 2]; [3; 4]] [30; 40]];
   []].

(** The demo trajectory with an episode of no steps in the middle. *)
Definition demo_trajectory_gap : list (list snapshot) :=
  [[consumers [[1; 2]; [3; 4]] [10; 20]]; []; [consumers [[1; 2]; [3; 4]] [50; 60]]].

(** The demo feature vectors with entries beyond the two entities. *)
Definition demo_values_surplus : list pyval :=
  [PyList [PyInt 10; PyInt 20; PyInt 99]; PyList [PyInt 30; PyInt 40; PyInt 98; PyInt 97]].

Definition zero_slot_locals : locals :=
  Eval vm_compute in
    match reshape snapshot_get_by_path (demo_engine (OInt 3600) 0 1) demo_trajectory 0 with
    | Ok st => st
    | Raise _ => initial_locals
    end.


Ltac in_list := apply list_elem_of_In; simpl; tauto.

(** ** Worked examples *)

Example tolist_2d :
  tolist (Axis [Axis [Scalar 1; Scalar 2]; Axis [Scalar 3; Scalar 4]])
  = PyList [PyList [PyInt 1; PyInt 2]; PyList [PyInt 3; PyInt 4]].
Proof. reflexivity. Qed.

Example flatten_column :
  tolist (flatten (Axis [Axis [Scalar 10]; Axis [Scalar 20]]))
  = PyList [PyInt 10; PyInt 20].
Proof. reflexivity. Qed.

Example isoformat_epoch : isoformat 0 = "1970-01-01T00:00:00+00:00".
Proof. reflexivity. Qed.

Example isoformat_leap_day :
  isoformat (nanoseconds 1709210096 + 250000000) = "2024-02-29T12:34:56.250000+00:00".
Proof. vm_compute. reflexivity. Qed.

Example isoformat_before_epoch :
  isoformat (nanoseconds (-1)) = "1969-12-31T23:59:59+00:00".
Proof. vm_compute. reflexivity. Qed.

Example dumps_empty : json_dumps (Some 2%nat) false (PyList []) = "[]".
Proof. reflexivity. Qed.

Example dumps_nested :
  json_dumps (Some 2%nat) false
    (PyList [PyDict [("a", PyInt 1); ("b", PyList [PyInt 2; PyInt (-3)])]])
  = "[
  {
    " ++ dquote ++ "a" ++ dquote ++ ": 1,
    " ++ dquote ++ "b" ++ dquote ++ ": [
      2,
      -3
    ]
  }
]".
Proof. vm_compute. reflexivity. Qed.

Example dumps_compact :
  json_dumps None true (PyList [PyDict [("a", PyInt 1)]; PyNone])
  = "[{" ++ dquote ++ "a" ++ dquote ++ ": 1}, null]".
Proof. vm_compute. reflexivity. Qed.

Example substitute_named :
  substitute "a = '$x'; b = ${y}z $$" [("x", OStr "1"); ("y", OInt 2)]
  = Ok "a = '1'; b = 2z $".
Proof. reflexivity. Qed.

Example substitute_missing :
  substitute "$x and $y" [("x", OStr "1")] = Raise (KeyError "y").
Proof. reflexivity. Qed.

Example substitute_invalid : substitute "cost: $ 5" [] = Raise ValueError.
Proof. reflexivity. Qed.

Example re_split_path :
  re_split "/" "agents/consumers/coordinates" = ["agents"; "consumers"; "coordinates"].
Proof. reflexivity. Qed.

Example reshape_demo :
  geojsons <$> reshape snapshot_get_by_path (demo_engine (OInt 3600) 3 1)
                 demo_trajectory 0
  = Ok [FeatureCollection
          [point_feature "0" 2 1 10 "1970-01-01T00:00:00+00:00";
           point_feature "0" 2 1 30 "1970-01-01T01:00:00+00:00"];
        FeatureCollection
          [point_feature "1" 4 3 20 "1970-01-01T00:00:00+00:00";
           point_feature "1" 4 3 40 "1970-01-01T01:00:00+00:00"]].
Proof. vm_compute. reflexivity. Qed.

(** ** Loops *)

Lemma for_each_app {St X} (body : St -> X -> result St) (xs ys : list X) (s : St) :
  for_each body (xs ++ ys)%list s = for_each body xs s ≫= for_each body ys.
Proof.
  revert s. induction xs as [|x xs IH]; intros s; simpl; [reflexivity|].
  destruct (body s x) as [s'|e]; simpl; [apply IH | reflexivity].
Qed.

(** A loop that appends one computed item per iteration collects the items
    in order, provided each computation returns. *)
Lemma for_each_collect {X Y} (g : X -> result Y) (xs : list X) (acc : list Y) :
  (forall x, x ∈ xs -> exists y, g x = Ok y) ->
  exists ys,
    for_each (fun acc x => y ← g x; Ok (acc ++ [y])%list) xs acc = Ok (acc ++ ys)%list
    /\ Forall2 (fun x y => g x = Ok y) xs ys.
Proof.
  revert acc. induction xs as [|x xs IH]; intros acc Hok; simpl.
  - exists []. rewrite app_nil_r. split; [reflexivity | constructor].
  - destruct (Hok x) as [y Hy]; [left|].
    rewrite Hy. simpl.
    destruct (IH (acc ++ [y])%list) as (ys & Hloop & Hall).
    { intros x' Hx'. apply Hok. right. exact Hx'. }
    exists (y :: ys). rewrite Hloop, <- app_assoc. simpl.
    split; [reflexivity | constructor; assumption].
Qed.

(** A loop raises as soon as one of its items makes the body raise from any
    state the loop can be in. *)
Lemma for_each_raises {St X} (Inv : St -> Prop) (body : St -> X -> result St)
    (xs : list X) (k : nat) (x : X) :
  (forall s y s', Inv s -> body s y = Ok s' -> Inv s') ->
  xs !! k = Some x ->
  (forall s, Inv s -> raises (body s x)) ->
  forall s, Inv s -> raises (for_each body xs s).
Proof.
  intros Hstep Hk Hbad. revert k Hk.
  induction xs as [|y xs IH]; intros k Hk s Hs; [discriminate|].
  simpl. destruct k as [|k]; simpl in Hk.
  - injection Hk as ->. destruct (Hbad s Hs) as [e He]. rewrite He.
    exists e. reflexivity.
  - destruct (body s y) as [s'|e] eqn:Hy; simpl.
    + apply (IH k Hk). apply (Hstep s y s' Hs Hy).
    + exists e. reflexivity.
Qed.

Lemma for_each_invariant {St X} (Inv : St -> Prop) (body : St -> X -> result St)
    (xs : list X) :
  (forall s x s', Inv s -> body s x = Ok s' -> Inv s') ->
  forall s s', Inv s -> for_each body xs s = Ok s' -> Inv s'.
Proof.
  intros Hstep. induction xs as [|x xs IH]; intros s s' Hs; simpl.
  - intros [= <-]. exact Hs.
  - destruct (body s x) as [s1|e] eqn:Hx; simpl; [|discriminate].
    apply IH. apply (Hstep s x s1 Hs Hx).
Qed.

Lemma for_each_ext {St X} (body body' : St -> X -> result St) (xs : list X) (s : St) :
  (forall x s, x ∈ xs -> body s x = body' s x) ->
  for_each body xs s = for_each body' xs s.
Proof.
  revert s. induction xs as [|x xs IH]; intros s Hext; simpl; [reflexivity|].
  rewrite <- (Hext x s) by left.
  destruct (body s x) as [s1|e]; simpl; [|reflexivity].
  apply IH. intros x' s' Hx'. apply Hext. right. exact Hx'.
Qed.

Lemma mapM_inv {X Y} (g : X -> result Y) (xs : list X) (ys : list Y) :
  mapM g xs = Ok ys -> Forall2 (fun x y => g x = Ok y) xs ys.
Proof.
  revert ys. induction xs as [|x xs IH]; intros ys; simpl.
  - intros [= <-]. constructor.
  - destruct (g x) as [y|e] eqn:Hy; simpl; [|discriminate].
    destruct (mapM g xs) as [ys'|e]; simpl; [|discriminate].
    intros [= <-]. constructor; [exact Hy | apply IH; reflexivity].
Qed.

Lemma mapM_exists {X Y} (g : X -> result Y) (xs : list X) :
  (forall x, x ∈ xs -> exists y, g x = Ok y) ->
  exists ys, mapM g xs = Ok ys.
Proof.
  induction xs as [|x xs IH]; intros Hg; simpl; [exists []; reflexivity|].
  destruct (Hg x) as [y Hy]; [left|]. rewrite Hy. simpl.
  destruct IH as [ys Hys]; [intros x' Hx'; apply Hg; right; exact Hx'|].
  rewrite Hys. exists (y :: ys). reflexivity.
Qed.

Lemma mapM_Ok {X Y} (g : X -> result Y) (h : X -> Y) (xs : list X) :
  (forall x, x ∈ xs -> g x = Ok (h x)) ->
  mapM g xs = Ok (map h xs).
Proof.
  induction xs as [|x xs IH]; intros Hg; simpl; [reflexivity|].
  rewrite (Hg x) by left. simpl.
  rewrite IH; [reflexivity|]. intros x' Hx'. apply Hg. right. exact Hx'.
Qed.

Lemma lookup_enumerate {X} (xs : list X) (i : nat) (p : nat * X) :
  enumerate xs !! i = Some p <-> fst p = i /\ xs !! i = Some (snd p).
Proof.
  unfold enumerate. rewrite lookup_zip_with_Some. split.
  - intros (n & x & -> & Hn & Hx). apply lookup_seq in Hn as [-> _].
    simpl. auto.
  - intros [<- Hx]. exists (fst p), (snd p). destruct p as [n x]; simpl in *.
    split; [reflexivity|]. split; [|exact Hx].
    apply lookup_seq. split; [reflexivity|]. eapply lookup_lt_Some, Hx.
Qed.

Lemma length_enumerate {X} (xs : list X) : length (enumerate xs) = length xs.
Proof.
  unfold enumerate. rewrite length_zip_with, length_seq. lia.
Qed.

Lemma length_range (n : Z) : length (range n) = Z.to_nat n.
Proof. unfold range. rewrite length_map, length_seq. reflexivity. Qed.

Lemma lookup_range (n : Z) (i : nat) (z : Z) :
  range n !! i = Some z <-> z = Z.of_nat i /\ (i < Z.to_nat n)%nat.
Proof.
  unfold range. rewrite list_lookup_fmap. split.
  - intros H. destruct (seq 0 (Z.to_nat n) !! i) as [m|] eqn:Hm; [|discriminate].
    apply lookup_seq in Hm as [-> Hlt]. injection H as <-. auto.
  - intros [-> Hlt].
    assert (seq 0 (Z.to_nat n) !! i = Some i) as ->; [|reflexivity].
    apply lookup_seq. auto.
Qed.

Lemma range_succ (n : nat) :
  range (Z.of_nat (S n)) = (range (Z.of_nat n) ++ [Z.of_nat n])%list.
Proof.
  unfold range. rewrite !Nat2Z.id, seq_S, map_app. reflexivity.
Qed.

(** ** The GeoJSON builder *)

Lemma feature_Ok (i : nat) (coord value_list lat lon v : pyval) (t : Timestamp) :
  getitem coord 0 = Ok lat -> getitem coord 1 = Ok lon ->
  getitem value_list i = Ok v ->
  feature i coord t value_list
  = Ok (PyDict
          [("type", PyStr "Feature");
           ("geometry",
            PyDict [("type", PyStr "Point"); ("coordinates", PyList [lon; lat])]);
           ("properties",
            PyDict [("id", PyStr (str_nat i)); ("value", v);
                    ("time", PyStr (isoformat t))])]).
Proof. intros Hlat Hlon Hv. unfold feature. rewrite Hlon, Hlat, Hv. reflexivity. Qed.

Lemma feature_fields (i : nat) (coord value_list f : pyval) (t : Timestamp) :
  feature i coord t value_list = Ok f ->
  exists lat lon v,
    getitem coord 0 = Ok lat /\ getitem coord 1 = Ok lon
    /\ getitem value_list i = Ok v
    /\ field ["properties"; "id"] f = Some (PyStr (str_nat i))
    /\ field ["properties"; "value"] f = Some v
    /\ field ["properties"; "time"] f = Some (PyStr (isoformat t))
    /\ field ["geometry"; "coordinates"] f = Some (PyList [lon; lat]).
Proof.
  unfold feature. intros H.
  destruct (getitem coord 1) as [lon|] eqn:Hlon; [|discriminate].
  destruct (getitem coord 0) as [lat|] eqn:Hlat; [|discriminate].
  destruct (getitem value_list i) as [v|] eqn:Hv; [|discriminate].
  simpl in H. injection H as <-. exists lat, lon, v. repeat split; reflexivity.
Qed.

Lemma append_collection_step (c : pyval) (vals : list pyval) (ts : list Timestamp)
    (g : list pyval) (e : nat * pyval) (fs : list pyval) :
  for_each (fun acc pair =>
              f ← feature (fst e) (snd e) (fst pair) (snd pair);
              Ok (acc ++ [f])%list)
           (zip ts vals) [] = Ok fs ->
  append_collection (Locals c vals ts g) e
  = Ok (Locals c vals ts (g ++ [FeatureCollection fs])%list).
Proof.
  intros Hfs. unfold append_collection, append_feature. simpl.
  rewrite Hfs. reflexivity.
Qed.

Lemma append_collection_loop (c : pyval) (vals : list pyval) (ts : list Timestamp)
    (entities : list (nat * pyval)) (g : list pyval) :
  (forall e pair, e ∈ entities -> pair ∈ zip ts vals ->
     exists f, feature (fst e) (snd e) (fst pair) (snd pair) = Ok f) ->
  exists docs,
    for_each append_collection entities (Locals c vals ts g)
    = Ok (Locals c vals ts (g ++ docs)%list)
    /\ Forall2 (collection_for ts vals) entities docs.
Proof.
  revert g. induction entities as [|e entities IH]; intros g Hok; simpl.
  - exists []. rewrite app_nil_r. split; [reflexivity | constructor].
  - destruct (for_each_collect
                (fun pair => feature (fst e) (snd e) (fst pair) (snd pair))
                (zip ts vals) []) as (fs & Hfs & Hall).
    { intros pair Hpair. apply Hok; [left | exact Hpair]. }
    rewrite (append_collection_step c vals ts g e ([] ++ fs) Hfs). simpl.
    destruct (IH (g ++ [FeatureCollection fs])%list) as (docs & Hloop & Hdocs).
    { intros e' pair He'. apply Hok. right. exact He'. }
    exists (FeatureCollection fs :: docs). rewrite Hloop, <- app_assoc. simpl.
    split; [reflexivity|]. constructor; [|exact Hdocs].
    exists fs. split; [reflexivity | exact Hall].
Qed.

Lemma build_geojsons_spec (rows vals : list pyval) (ts : list Timestamp)
    (g : list pyval) :
  well_shaped rows vals ts ->
  exists docs,
    build_geojsons (Locals (PyList rows) vals ts g)
    = Ok (Locals (PyList rows) vals ts docs)
    /\ Forall2 (collection_for ts vals) (enumerate rows) docs.
Proof.
  intros [Hrows Hvals]. unfold build_geojsons. simpl.
  destruct (append_collection_loop (PyList rows) vals ts (enumerate rows) [])
    as (docs & Hloop & Hdocs); [|exists docs; auto].
  intros [i row] [t vl] He Hpair. simpl.
  apply list_elem_of_lookup in He as [i' He].
  apply lookup_enumerate in He as [Hi Hrow]. simpl in Hi, Hrow. subst i'.
  apply list_elem_of_lookup in Hpair as [j Hpair].
  apply lookup_zip_with_Some in Hpair as (t' & vl' & [= -> ->] & Ht & Hvl).
  destruct (Hrows row) as [[lat Hlat] [lon Hlon]].
  { eapply list_elem_of_lookup_2, Hrow. }
  destruct (Hvals j t' vl' i Ht Hvl) as [v Hv].
  { eapply lookup_lt_Some, Hrow. }
  eexists. apply (feature_Ok _ _ _ lat lon v); assumption.
Qed.

Lemma collection_lookup (rows vals docs : list pyval) (ts : list Timestamp)
    (i : nat) (row : pyval) :
  Forall2 (collection_for ts vals) (enumerate rows) docs ->
  rows !! i = Some row ->
  exists features,
    docs !! i = Some (FeatureCollection features)
    /\ length features = Nat.min (length ts) (length vals)
    /\ forall j t value_list,
         ts !! j = Some t -> vals !! j = Some value_list ->
         exists f, features !! j = Some f /\ feature i row t value_list = Ok f.
Proof.
  intros Hdocs Hrow.
  assert (enumerate rows !! i = Some (i, row)) as He.
  { apply lookup_enumerate. auto. }
  destruct (Forall2_lookup_l _ _ _ _ _ Hdocs He) as (doc & Hdoc & fs & -> & Hfs).
  simpl in Hfs. exists fs. split; [exact Hdoc|]. split.
  - rewrite <- (Forall2_length _ _ _ Hfs), length_zip_with. reflexivity.
  - intros j t vl Ht Hvl.
    assert (zip ts vals !! j = Some (t, vl)) as Hpair.
    { apply lookup_zip_with_Some. exists t, vl. auto. }
    destruct (Forall2_lookup_l _ _ _ _ _ Hfs Hpair) as (f & Hf & Hfeat).
    exists f. auto.
Qed.


(** C6 - Coordinate round-trip.  For an entity whose stored position is
    [(lat, lon)], every Feature the builder emits for it has
    geometry.coordinates [[lon, lat]], and one Feature is emitted for each
    paired timestamp. *)
Theorem coordinate_round_trip (rows vals : list pyval) (ts : list Timestamp)
    (i : nat) (lat lon : pyval) :
  well_shaped rows vals ts ->
  rows !! i = Some (PyList [lat; lon]) ->
  exists docs features,
    build_geojsons (Locals (PyList rows) vals ts [])
    = Ok (Locals (PyList rows) vals ts docs)
    /\ docs !! i = Some (FeatureCollection features)
    /\ length features = Nat.min (length ts) (length vals)
    /\ forall f, f ∈ features ->
         field ["geometry"; "coordinates"] f = Some (PyList [lon; lat]).
Proof.
  intros Hshape Hrow.
  destruct (build_geojsons_spec rows vals ts [] Hshape) as (docs & Hrun & Hdocs).
  destruct (collection_lookup rows vals docs ts i _ Hdocs Hrow)
    as (features & Hdoc & Hlen & Hfeat).
  exists docs, features. repeat split; try assumption.
  intros f Hf. apply list_elem_of_lookup in Hf as [j Hj].
  assert (j < Nat.min (length ts) (length vals))%nat as Hlt.
  { rewrite <- Hlen. eapply lookup_lt_Some, Hj. }
  destruct (lookup_lt_is_Some_2 ts j) as [t Ht]; [lia|].
  destruct (lookup_lt_is_Some_2 vals j) as [vl Hvl]; [lia|].
  destruct (Hfeat j t vl Ht Hvl) as (f' & Hf' & Hmade).
  rewrite Hj in Hf'. injection Hf' as <-.
  destruct (feature_fields _ _ _ _ _ Hmade)
    as (lat' & lon' & v & Hlat & Hlon & _ & _ & _ & _ & Hgeo).
  simpl in Hlat, Hlon. injection Hlat as <-. injection Hlon as <-. exact Hgeo.
Qed.

(** ** The trajectory reducer *)

Section Reducer.

Context {State : Type}.
Variable get_by_path : State -> list string -> result ndarray.
Variable self : GeoPlot.
Variable state_trajectory : list (list State).

Lemma tolist_flatten (a : ndarray) :
  tolist (flatten a) = PyList (map PyInt (ravel a)).
Proof.
  unfold flatten. simpl. f_equal. induction (ravel a) as [|x l IH]; simpl;
    [reflexivity | f_equal; exact IH].
Qed.

Lemma reads_functional (episode : list State) (p p' f f' : ndarray) :
  reads get_by_path self episode p f -> reads get_by_path self episode p' f' ->
  p = p' /\ f = f'.
Proof.
  intros (s & Hs & Hp & Hf) (s' & Hs' & Hp' & Hf').
  rewrite Hs in Hs'. injection Hs' as <-.
  rewrite Hp in Hp'. rewrite Hf in Hf'. split; congruence.
Qed.

Lemma reduce_episode_Ok (st : locals) (i : nat) (episode : list State)
    (position property : ndarray) :
  state_trajectory !! i = Some episode ->
  reads get_by_path self episode position property ->
  reduce_episode get_by_path self state_trajectory st (Z.of_nat i)
  = Ok (Locals (tolist position)
               (values st ++ [tolist (flatten property)])%list
               (timestamps st) (geojsons st)).
Proof.
  intros Hep (s & Hs & Hp & Hf). unfold reduce_episode, list_getitem, last_item.
  rewrite Nat2Z.id, Hep. simpl. rewrite Hs. simpl. rewrite Hp. simpl.
  rewrite Hf. reflexivity.
Qed.

(** The loop over the first [n] episodes. *)
Lemma reduce_prefix (st : locals) (n : nat) :
  (forall i, (i < n)%nat ->
     exists episode position property,
       state_trajectory !! i = Some episode
       /\ reads get_by_path self episode position property) ->
  exists st',
    for_each (reduce_episode get_by_path self state_trajectory)
             (range (Z.of_nat n)) st = Ok st'
    /\ timestamps st' = timestamps st
    /\ geojsons st' = geojsons st
    /\ length (values st') = (length (values st) + n)%nat
    /\ (forall i episode position property,
          (i < n)%nat -> state_trajectory !! i = Some episode ->
          reads get_by_path self episode position property ->
          values st' !! (length (values st) + i)%nat
          = Some (tolist (flatten property)))
    /\ (forall m episode position property,
          n = S m -> state_trajectory !! m = Some episode ->
          reads get_by_path self episode position property ->
          coords st' = tolist position)
    /\ (n = O -> st' = st).
Proof.
  induction n as [|n IH]; intros Hreads.
  - exists st. simpl. repeat split; try reflexivity; try lia;
      intros; try lia; try discriminate.
  - destruct IH as (st1 & Hrun & Hts & Hg & Hlen & Hvals & _ & _).
    { intros i Hi. apply Hreads. lia. }
    destruct (Hreads n) as (ep & p & f & Hep & Hrd); [lia|].
    rewrite range_succ, for_each_app, Hrun. simpl.
    rewrite (reduce_episode_Ok st1 n ep p f Hep Hrd). simpl.
    eexists. split; [reflexivity|]. simpl.
    split; [exact Hts|]. split; [exact Hg|]. split.
    { rewrite length_app, Hlen. simpl. lia. }
    split; [|split].
    + intros i ep' p' f' Hi Hep' Hrd'.
      destruct (decide (i = n)) as [->|Hne].
      * rewrite Hep in Hep'. injection Hep' as <-.
        destruct (reads_functional _ _ _ _ _ Hrd Hrd') as [_ <-].
        rewrite lookup_app_r by lia.
        replace (length (values st) + n - length (values st1))%nat with O by lia.
        reflexivity.
      * rewrite lookup_app_l by lia. apply (Hvals i ep' p' f'); [lia|assumption..].
    + intros m ep' p' f' [= <-] Hep' Hrd'.
      rewrite Hep in Hep'. injection Hep' as <-.
      destruct (reads_functional _ _ _ _ _ Hrd Hrd') as [<- _]. reflexivity.
    + discriminate.
Qed.

Lemma reduce_trajectory_range :
  range (Z.of_nat (length state_trajectory) - 1)
  = range (Z.of_nat (length state_trajectory - 1)).
Proof. unfold range. do 2 f_equal. lia. Qed.

End Reducer.

(** C3 - Trajectory Reducer behaviour.  For a trajectory of at least two
    episodes whose episodes other than the last can be read, the reducer
    returns; the feature-vector list has one entry per episode other than the
    last, the [i]-th being the flattened feature array of episode [i]'s final
    snapshot; the position array is the one read from the final snapshot of
    episode [len - 2]. *)
Theorem reducer_behavior {State : Type}
    (get_by_path : State -> list string -> result ndarray) (self : GeoPlot)
    (state_trajectory : list (list State)) :
  (2 <= length state_trajectory)%nat ->
  (forall i episode,
     (i < length state_trajectory - 1)%nat ->
     state_trajectory !! i = Some episode ->
     exists position property, reads get_by_path self episode position property) ->
  exists st,
    reduce_trajectory get_by_path self state_trajectory initial_locals = Ok st
    /\ length (values st) = (length state_trajectory - 1)%nat
    /\ (forall i episode position property,
          (i < length state_trajectory - 1)%nat ->
          state_trajectory !! i = Some episode ->
          reads get_by_path self episode position property ->
          values st !! i = Some (PyList (map PyInt (ravel property))))
    /\ (forall episode position property,
          state_trajectory !! (length state_trajectory - 2)%nat = Some episode ->
          reads get_by_path self episode position property ->
          coords st = tolist position).
Proof.
  intros Hlen Hreads.
  destruct (reduce_prefix get_by_path self state_trajectory initial_locals
              (length state_trajectory - 1))
    as (st & Hrun & _ & _ & Hn & Hvals & Hcoords & _).
  { intros i Hi. destruct (lookup_lt_is_Some_2 state_trajectory i) as [ep Hep]; [lia|].
    destruct (Hreads i ep Hi Hep) as (p & f & Hrd). exists ep, p, f. auto. }
  exists st. unfold reduce_trajectory. rewrite reduce_trajectory_range.
  split; [exact Hrun|]. split; [exact Hn|]. split.
  - intros i ep p f Hi Hep Hrd. rewrite <- tolist_flatten.
    apply (Hvals i ep p f Hi Hep Hrd).
  - intros ep p f Hep Hrd.
    apply (Hcoords (length state_trajectory - 2)%nat ep p f); [lia|assumption..].
Qed.

(** ** The timestamp generator *)

Lemma range_nonpositive (n : Z) : n <= 0 -> range n = [].
Proof. intros Hn. unfold range. replace (Z.to_nat n) with O by lia. reflexivity. Qed.

Lemma range_positive (n : Z) : 0 < n -> exists rest, range n = 0 :: rest.
Proof.
  intros Hn. unfold range. destruct (Z.to_nat n) as [|m] eqn:Hm; [lia|].
  simpl. eexists. reflexivity.
Qed.

Lemma elem_of_range (n i : Z) : i ∈ range n -> 0 <= i < n.
Proof.
  intros Hi. apply list_elem_of_lookup in Hi as [k Hk].
  apply lookup_range in Hk as [-> Hk]. lia.
Qed.

(** A slot of an int step, when it exists, is the exact sum. *)
Lemma slot_int_inv (start_time s i : Z) (t : Timestamp) :
  slot start_time (OInt s) i = Ok t -> t = start_time + nanoseconds (i * s).
Proof.
  unfold slot, Timedelta, Timestamp_add.
  destruct (_ && _); simpl; [|discriminate].
  destruct (_ || _); [discriminate|]. intros [= <-]. reflexivity.
Qed.

(** A slot that lies ahead of the start exists when the interval and the sum
    fit 64 bits. *)
Lemma slot_int_forward (start_time s i : Z) :
  0 <= nanoseconds (i * s) <= int64_max ->
  start_time + nanoseconds (i * s) <= int64_max ->
  slot start_time (OInt s) i = Ok (start_time + nanoseconds (i * s)).
Proof.
  intros [Hlow Hhigh] Hsum. unfold slot, Timedelta, Timestamp_add.
  assert ((int64_min <? nanoseconds (i * s)) = true) as ->.
  { apply Z.ltb_lt. unfold int64_min. lia. }
  assert ((nanoseconds (i * s) <=? int64_max) = true) as ->.
  { apply Z.leb_le. exact Hhigh. }
  simpl.
  assert ((int64_max <? start_time + nanoseconds (i * s)) = false) as ->.
  { apply Z.ltb_ge. exact Hsum. }
  assert ((nanoseconds (i * s) <? 0) = false) as ->.
  { apply Z.ltb_ge. exact Hlow. }
  rewrite andb_false_r. reflexivity.
Qed.

Lemma slots_are_spaced (start_time s : Z) (indices : list Z) (ts : list Timestamp) :
  Forall2 (fun i t => slot start_time (OInt s) i = Ok t) indices ts ->
  ts = map (fun i => start_time + nanoseconds (i * s)) indices.
Proof.
  induction 1 as [|i t indices ts Hslot _ IH]; simpl; [reflexivity|].
  rewrite (slot_int_inv _ _ _ _ Hslot), IH. reflexivity.
Qed.

Lemma generate_timestamps_inv (self : GeoPlot) (start_time : Timestamp)
    (st st' : locals) :
  generate_timestamps self start_time st = Ok st' ->
  coords st' = coords st /\ values st' = values st /\ geojsons st' = geojsons st
  /\ Forall2 (fun i t => slot start_time (step_time self) i = Ok t)
             (range (slots_of self)) (timestamps st').
Proof.
  unfold generate_timestamps, slots_of.
  destruct (mapM _ _) as [ts|e] eqn:Hts; simpl; [|discriminate].
  intros [= <-]. simpl. repeat split. apply mapM_inv, Hts.
Qed.

(** The generator returns exactly when every slot exists. *)
Lemma generate_timestamps_Ok (self : GeoPlot) (start_time : Timestamp)
    (st : locals) :
  slots_exist self start_time ->
  exists ts,
    generate_timestamps self start_time st
    = Ok (Locals (coords st) (values st) ts (geojsons st))
    /\ Forall2 (fun i t => slot start_time (step_time self) i = Ok t)
               (range (slots_of self)) ts.
Proof.
  intros Hslots.
  destruct (mapM_exists (slot start_time (step_time self)) (range (slots_of self)))
    as [ts Hts].
  { intros i Hi. apply Hslots, elem_of_range, Hi. }
  exists ts. split; [|apply mapM_inv, Hts].
  unfold generate_timestamps. unfold slots_of in Hts. rewrite Hts. reflexivity.
Qed.

(** For a step of [s >= 0] seconds the slots exist as soon as the last one
    does. *)
Lemma slots_exist_int (self : GeoPlot) (start_time s : Z) :
  step_time self = OInt s ->
  0 <= s ->
  nanoseconds ((slots_of self - 1) * s) <= int64_max ->
  start_time + nanoseconds ((slots_of self - 1) * s) <= int64_max ->
  slots_exist self start_time.
Proof.
  intros Hs Hpos Hdelta Hsum i Hi. rewrite Hs. eexists.
  assert (0 <= i * s <= (slots_of self - 1) * s) as Hbound by nia.
  unfold nanoseconds in *. apply slot_int_forward; unfold nanoseconds; lia.
Qed.

Lemma generate_timestamps_int (self : GeoPlot) (start_time : Timestamp)
    (st : locals) (s : Z) :
  step_time self = OInt s ->
  slots_exist self start_time ->
  generate_timestamps self start_time st
  = Ok (Locals (coords st) (values st)
               (map (fun i => start_time + nanoseconds (i * s))
                    (range (slots_of self)))
               (geojsons st)).
Proof.
  intros Hs Hslots.
  destruct (generate_timestamps_Ok self start_time st Hslots) as (ts & Hrun & Hall).
  rewrite Hs in Hall. rewrite Hrun, (slots_are_spaced _ _ _ _ Hall). reflexivity.
Qed.

Lemma lookup_slots (start_time s n : Z) (i : nat) (t : Timestamp) :
  map (fun i => start_time + nanoseconds (i * s)) (range n) !! i = Some t
  <-> t = start_time + nanoseconds (Z.of_nat i * s) /\ (i < Z.to_nat n)%nat.
Proof.
  rewrite list_lookup_fmap. split.
  - destruct (range n !! i) as [z|] eqn:Hz; [|discriminate].
    apply lookup_range in Hz as [-> Hlt]. intros [= <-]. auto.
  - intros [-> Hlt].
    assert (range n !! i = Some (Z.of_nat i)) as ->; [|reflexivity].
    apply lookup_range. auto.
Qed.



(** ** Construction *)

(** C9 - Fail-fast construction.  If one of the five required keys is
    missing from the options, the constructor raises a [KeyError] naming a
    required key that is missing, so no engine exists to render with. *)
Theorem construction_fails_fast (cfg : simulation_metadata)
    (options : gmap string pyobj) (k : string) :
  k ∈ required_options ->
  options !! k = None ->
  exists missing,
    __init__ cfg options = Raise (KeyError missing)
    /\ missing ∈ required_options
    /\ options !! missing = None.
Proof.
  intros Hk Hnone. unfold __init__, option_get, required_options in *.
  destruct (options !! "cesium_token") eqn:H1; simpl;
    [|exists "cesium_token"; repeat split; [in_list | exact H1]].
  destruct (options !! "step_time") eqn:H2; simpl;
    [|exists "step_time"; repeat split; [in_list | exact H2]].
  destruct (options !! "coordinates") eqn:H3; simpl;
    [|exists "coordinates"; repeat split; [in_list | exact H3]].
  destruct (options !! "feature") eqn:H4; simpl;
    [|exists "feature"; repeat split; [in_list | exact H4]].
  destruct (options !! "visualization_type") eqn:H5; simpl;
    [|exists "visualization_type"; repeat split; [in_list | exact H5]].
  exfalso. repeat (apply elem_of_cons in Hk as [->|Hk]; [congruence|]).
  inversion Hk.
Qed.

(** C10 - No value validation at construction.  If the options bind the five
    required keys, the constructor returns an engine holding the bound values
    whatever they are; with a [step_time] of 0 the timestamps it later
    generates are all equal to the start instant. *)
Theorem construction_accepts_any_values (cfg : simulation_metadata)
    (options : gmap string pyobj) (token step position property mode : pyobj) :
  options !! "cesium_token" = Some token ->
  options !! "step_time" = Some step ->
  options !! "coordinates" = Some position ->
  options !! "feature" = Some property ->
  options !! "visualization_type" = Some mode ->
  let self := {| config := cfg; cesium_token := token; step_time := step;
                 entity_position := position; entity_property := property;
                 visualization_type := mode |} in
  __init__ cfg options = Ok self
  /\ (step = OInt 0 ->
      forall start_time st,
        generate_timestamps self start_time st
        = Ok (Locals (coords st) (values st)
                (replicate (Z.to_nat (num_episodes cfg * num_steps_per_episode cfg))
                           start_time)
                (geojsons st))).
Proof.
  intros H1 H2 H3 H4 H5 self. split.
  - unfold __init__, option_get. rewrite H1, H2, H3, H4, H5. reflexivity.
  - intros -> start_time st. unfold generate_timestamps. simpl.
    rewrite (mapM_Ok _ (fun _ => start_time)).
    + simpl. do 2 f_equal. unfold range.
      generalize (Z.to_nat (num_episodes cfg * num_steps_per_episode cfg)).
      intros n. generalize O.
      induction n as [|n IH]; intros k; simpl; [reflexivity|].
      f_equal. apply IH.
    + intros i _. unfold slot. rewrite Z.mul_0_r. simpl.
      unfold Timestamp_add. simpl. rewrite Z.add_0_r. reflexivity.
Qed.

(** ** Shape mismatches *)

Lemma raises_bind {A B} (m : result A) (f : A -> result B) :
  raises m -> raises (m ≫= f).
Proof. intros [e ->]. exists e. reflexivity. Qed.

Lemma feature_short_vector (coord : pyval) (t : Timestamp) (items : list pyval) :
  raises (feature (length items) coord t (PyList items)).
Proof.
  unfold feature.
  destruct (getitem coord 1) as [lon|e]; simpl; [|exists e; reflexivity].
  destruct (getitem coord 0) as [lat|e]; simpl; [|exists e; reflexivity].
  rewrite (lookup_ge_None_2 items (length items)) by lia.
  exists IndexError. reflexivity.
Qed.

Lemma append_collection_frame (st st' : locals) (e : nat * pyval) :
  append_collection st e = Ok st' ->
  coords st' = coords st /\ values st' = values st
  /\ timestamps st' = timestamps st.
Proof.
  unfold append_collection.
  destruct (for_each _ _ _) as [fs|]; simpl; [|discriminate].
  intros [= <-]. auto.
Qed.

(** C8 (amended) - Shape mismatch.  If a feature vector that is paired with a
    timestamp has fewer entries than the position array has entities, the
    builder raises. *)
Theorem paired_short_vector_raises (rows vals : list pyval)
    (ts : list Timestamp) (g : list pyval) (j : nat) (t : Timestamp)
    (items : list pyval) :
  ts !! j = Some t ->
  vals !! j = Some (PyList items) ->
  (length items < length rows)%nat ->
  raises (build_geojsons (Locals (PyList rows) vals ts g)).
Proof.
  intros Ht Hvl Hshort. unfold build_geojsons. simpl.
  destruct (lookup_lt_is_Some_2 rows (length items) Hshort) as [row Hrow].
  apply (for_each_raises (fun st => values st = vals /\ timestamps st = ts)
           append_collection (enumerate rows) (length items) (length items, row)).
  - intros s y s' [Hv Hs] Hstep.
    destruct (append_collection_frame _ _ _ Hstep) as (_ & -> & ->). auto.
  - apply lookup_enumerate. auto.
  - intros s [Hv Hs]. unfold append_collection. rewrite Hv, Hs. simpl.
    apply raises_bind.
    apply (for_each_raises (fun _ => True) _ (zip ts vals) j (t, PyList items)).
    + auto.
    + apply lookup_zip_with_Some. exists t, (PyList items). auto.
    + intros acc _. unfold append_feature. simpl.
      apply raises_bind, feature_short_vector.
    + exact I.
  - simpl. auto.
Qed.

(** C8 - counterexample.  With one timestamp and two feature vectors the
    second vector is never paired: it is empty, the position array has one
    entity, and the builder returns a FeatureCollection instead of raising. *)
Lemma any_short_vector_raises_fails : ~ any_short_vector_raises.
Proof.
  intros Hclaim.
  destruct (Hclaim [PyList [PyInt 1; PyInt 2]] [PyList [PyInt 5]; PyList []]
              [0] 1%nat []) as [e He]; [reflexivity | simpl; lia |].
  vm_compute in He. discriminate.
Qed.

(** ** Files *)

Lemma append_inv_head (p a b : string) : p ++ a = p ++ b -> a = b.
Proof.
  induction p as [|c p IH]; simpl; [auto|]. intros [= H]. apply IH, H.
Qed.

Lemma paths_differ (self : GeoPlot) : geodata_path self <> geoplot_path self.
Proof.
  unfold geodata_path, geoplot_path. intros H.
  apply append_inv_head in H. discriminate.
Qed.

(** A substitution sees its mapping through [str(mapping[name])] only. *)
Lemma substitute_ext (m1 m2 : list (string * pyobj)) :
  (forall name, mapping_get m1 name = mapping_get m2 name) ->
  forall template st, substitute_from m1 st template = substitute_from m2 st template.
Proof.
  intros Hget. induction template as [|c rest IH]; intros st.
  - destruct st; simpl; auto.
  - destruct st; simpl; rewrite ?IH, ?Hget; reflexivity.
Qed.

Lemma mapping_get_cons (k : string) (v : pyobj) (m : list (string * pyobj))
    (name : string) :
  mapping_get ((k, v) :: m) name
  = if String.eqb k name then py_str v else mapping_get m name.
Proof. unfold mapping_get. simpl. destruct (String.eqb k name); reflexivity. Qed.

Lemma substitute_texts (token start stop data mode : string) :
  exists page,
    substitute geoplot_template
      [("accessToken", OStr token); ("startTime", OStr start);
       ("stopTime", OStr stop); ("data", OStr data); ("visualType", OStr mode)]
    = Ok page.
Proof.
  destruct (substitute _ _) as [page|e] eqn:Hpage; [exists page; reflexivity|].
  exfalso. vm_compute in Hpage. discriminate.
Qed.

(** The template names exactly the five keys [render] supplies, so the
    substitution returns when the token and the mode have a text. *)
Lemma substitute_geoplot_template (token mode : pyobj) (start stop data : string) :
  printable token -> printable mode ->
  exists page,
    substitute geoplot_template
      [("accessToken", token); ("startTime", OStr start); ("stopTime", OStr stop);
       ("data", OStr data); ("visualType", mode)] = Ok page.
Proof.
  intros [ttext Htoken] [mtext Hmode].
  destruct (substitute_texts ttext start stop data mtext) as [page Hpage].
  exists page. rewrite <- Hpage. apply substitute_ext.
  intros name. rewrite !mapping_get_cons, Htoken, Hmode. reflexivity.
Qed.

Section Files.

Context {State : Type}.
Variable get_by_path : State -> list string -> result ndarray.
Variable self : GeoPlot.
Variable state_trajectory : list (list State).

Lemma render_raises_early (w : world) (e : exn) :
  reshape get_by_path self state_trajectory (clock w) = Raise e ->
  render get_by_path self state_trajectory w = (w, Raise e).
Proof. intros H. unfold render. rewrite H. reflexivity. Qed.

(** Once the reshaping has returned, the .geojson file holds the document,
    whatever becomes of the page. *)
Lemma render_writes_geojson (w : world) (st : locals) :
  reshape get_by_path self state_trajectory (clock w) = Ok st ->
  files (fst (render get_by_path self state_trajectory w)) !! geodata_path self
  = Some (utf8 (json_dumps (Some 2%nat) false (PyList (geojsons st))))
  /\ snd (render get_by_path self state_trajectory w)
     = (page_mapping self st ≫= substitute geoplot_template) ≫= fun _ => Ok tt.
Proof.
  intros H. unfold render. rewrite H.
  destruct (page_mapping self st ≫= substitute geoplot_template) as [page|e];
    simpl; (split; [|reflexivity]).
  - rewrite lookup_insert_ne by (apply not_eq_sym, paths_differ).
    rewrite lookup_insert_ne by (apply not_eq_sym, paths_differ).
    apply lookup_insert_eq.
  - rewrite lookup_insert_ne by (apply not_eq_sym, paths_differ).
    apply lookup_insert_eq.
Qed.

Lemma page_mapping_Ok (st : locals) (t : Timestamp) :
  timestamps st !! O = Some t ->
  printable (cesium_token self) -> printable (visualization_type self) ->
  exists page, page_mapping self st ≫= substitute geoplot_template = Ok page.
Proof.
  intros Ht Htoken Hmode. unfold page_mapping, list_getitem, last_item.
  rewrite Ht. simpl.
  destruct (last (timestamps st)) as [final|] eqn:Hlast.
  - simpl. apply substitute_geoplot_template; assumption.
  - apply last_None in Hlast. rewrite Hlast in Ht. discriminate.
Qed.

End Files.

(** C5 (amended) - Render determinism.  Two calls of [render] by the same
    engine on the same trajectory that read the same instant from the clock
    leave identical bytes in the .geojson file and end alike, whatever the
    files held before; if the reshaping raises, both calls raise the same
    exception and write nothing. *)
Theorem same_instant_same_bytes {State : Type}
    (get_by_path : State -> list string -> result ndarray) (self : GeoPlot)
    (state_trajectory : list (list State)) (w1 w2 : world) :
  clock w1 = clock w2 ->
  (exists bytes,
     files (fst (render get_by_path self state_trajectory w1)) !! geodata_path self
     = Some bytes
     /\ files (fst (render get_by_path self state_trajectory w2)) !! geodata_path self
        = Some bytes
     /\ snd (render get_by_path self state_trajectory w1)
        = snd (render get_by_path self state_trajectory w2))
  \/ (exists e,
        render get_by_path self state_trajectory w1 = (w1, Raise e)
        /\ render get_by_path self state_trajectory w2 = (w2, Raise e)).
Proof.
  intros Hclock.
  destruct (reshape get_by_path self state_trajectory (clock w1)) as [st|e] eqn:H1.
  - left. assert (H2 := H1). rewrite Hclock in H2.
    destruct (render_writes_geojson get_by_path self state_trajectory w1 st H1)
      as [Hf1 Hr1].
    destruct (render_writes_geojson get_by_path self state_trajectory w2 st H2)
      as [Hf2 Hr2].
    eexists. split; [exact Hf1|]. split; [exact Hf2|]. congruence.
  - right. exists e. split; apply render_raises_early; congruence.
Qed.

(** C5 - counterexample.  The demo engine renders the demo trajectory, one
    second passes, and it renders again: the .geojson file changes, because
    every Feature carries a time counted from the instant of the call. *)
Lemma render_twice_identical_fails : ~ render_twice_identical.
Proof.
  intros Hclaim.
  specialize (Hclaim snapshot snapshot_get_by_path (demo_engine (OInt 3600) 3 1)
                demo_trajectory (World 0 ∅) 1).
  assert ((if decide
                (files (fst (render snapshot_get_by_path (demo_engine (OInt 3600) 3 1)
                               demo_trajectory (World 0 ∅)))
                 !! geodata_path (demo_engine (OInt 3600) 3 1)
                 = files (fst (render snapshot_get_by_path (demo_engine (OInt 3600) 3 1)
                                 demo_trajectory
                                 (elapse 1
                                    (fst (render snapshot_get_by_path
                                            (demo_engine (OInt 3600) 3 1)
                                            demo_trajectory (World 0 ∅))))))
                   !! geodata_path (demo_engine (OInt 3600) 3 1))
           then true else false) = false) as Hdiff.
  { vm_compute. reflexivity. }
  destruct (decide _) as [_|Hne]; [discriminate|].
  apply Hne, Hclaim. lia.
Qed.

(** ** What a reshaping that returns holds *)

Lemma build_geojsons_frame (st st' : locals) :
  build_geojsons st = Ok st' ->
  coords st' = coords st /\ values st' = values st
  /\ timestamps st' = timestamps st.
Proof.
  unfold build_geojsons. destruct (iter (coords st)) as [rows|e]; simpl; [|discriminate].
  apply (for_each_invariant
           (fun s => coords s = coords st /\ values s = values st
                     /\ timestamps s = timestamps st)).
  - intros s x s' (Hc & Hv & Ht) Hstep.
    destruct (append_collection_frame _ _ _ Hstep) as (-> & -> & ->). auto.
  - simpl. auto.
Qed.

Section Outcome.

Context {State : Type}.
Variable get_by_path : State -> list string -> result ndarray.
Variable self : GeoPlot.
Variable state_trajectory : list (list State).

Lemma reshape_inv (start_time : Timestamp) (st : locals) :
  reshape get_by_path self state_trajectory start_time = Ok st ->
  exists st1 st2,
    reduce_trajectory get_by_path self state_trajectory initial_locals = Ok st1
    /\ generate_timestamps self start_time st1 = Ok st2
    /\ build_geojsons st2 = Ok st.
Proof.
  unfold reshape.
  destruct (reduce_trajectory _ _ _ _) as [st1|e]; simpl; [|discriminate].
  destruct (generate_timestamps _ _ _) as [st2|e] eqn:H2; simpl; [|discriminate].
  intros H3. exists st1, st2. auto.
Qed.

(** The timestamps a returned reshaping holds. *)
Lemma reshape_timestamps (start_time : Timestamp) (st : locals) :
  reshape get_by_path self state_trajectory start_time = Ok st ->
  Forall2 (fun i t => slot start_time (step_time self) i = Ok t)
          (range (slots_of self)) (timestamps st).
Proof.
  intros H. destruct (reshape_inv _ _ H) as (st1 & st2 & _ & Hgen & Hbuild).
  destruct (build_geojsons_frame _ _ Hbuild) as (_ & _ & ->).
  apply (generate_timestamps_inv _ _ _ _ Hgen).
Qed.

End Outcome.

(** ** Whole renders *)

(** C7 (amended) - Fewer than two episodes.  For a trajectory of 0 or 1
    episodes and a positive number of configured timestamp slots, all of
    which can be computed from the instant of the call, and a token and a
    mode that [str] accepts, [render] returns without raising; the document
    it builds is the empty list and the .geojson file holds the text of an
    empty JSON array. *)
Theorem fewer_than_two_episodes {State : Type}
    (get_by_path : State -> list string -> result ndarray) (self : GeoPlot)
    (state_trajectory : list (list State)) (w : world) :
  (length state_trajectory <= 1)%nat ->
  0 < slots_of self ->
  slots_exist self (clock w) ->
  printable (cesium_token self) ->
  printable (visualization_type self) ->
  exists st,
    reshape get_by_path self state_trajectory (clock w) = Ok st
    /\ geojsons st = []
    /\ snd (render get_by_path self state_trajectory w) = Ok tt
    /\ files (fst (render get_by_path self state_trajectory w)) !! geodata_path self
       = Some "[]".
Proof.
  intros Hlen Hslots Hexist Htoken Hmode.
  assert (reduce_trajectory get_by_path self state_trajectory initial_locals
          = Ok initial_locals) as Hreduce.
  { unfold reduce_trajectory, range.
    replace (Z.to_nat (Z.of_nat (length state_trajectory) - 1)) with O by lia.
    reflexivity. }
  destruct (generate_timestamps_Ok self (clock w) initial_locals Hexist)
    as (ts & Hgen & Hall).
  assert (reshape get_by_path self state_trajectory (clock w)
          = Ok (Locals (PyList []) [] ts [])) as Hreshape.
  { unfold reshape. rewrite Hreduce. simpl. rewrite Hgen. reflexivity. }
  exists (Locals (PyList []) [] ts []). split; [exact Hreshape|].
  split; [reflexivity|].
  destruct (render_writes_geojson get_by_path self state_trajectory w _ Hreshape)
    as [Hfile Hres].
  split; [|exact Hfile].
  destruct (range_positive _ Hslots) as [rest Hrange]. rewrite Hrange in Hall.
  inversion Hall as [|i t indices ts' Hslot _ Hi Hts]; subst.
  destruct (page_mapping_Ok self (Locals (PyList []) [] (t :: ts') []) t)
    as [page Hpage]; [reflexivity | assumption | assumption |].
  rewrite Hres, Hpage. reflexivity.
Qed.

(** C7 - counterexample.  One episode, two slots and a step of 10^10
    seconds: the second timestamp does not fit 64 bits of nanoseconds, so
    [render] raises before it opens a file. *)
Lemma short_trajectory_never_fails_fails : ~ short_trajectory_never_fails.
Proof.
  intros Hclaim.
  destruct (Hclaim snapshot snapshot_get_by_path overflow_engine short_trajectory
              fresh_world) as [Hres _]; [simpl; lia | reflexivity |].
  vm_compute in Hres. discriminate.
Qed.

Lemma tolist_position_rows (E : nat) (a : ndarray) :
  position_array E a ->
  exists rows,
    tolist a = PyList rows /\ length rows = E
    /\ forall row, row ∈ rows ->
         exists lat lon, row = PyList [PyInt lat; PyInt lon].
Proof.
  intros (pairs & Hlen & ->). simpl.
  exists (map (fun p => PyList [PyInt (fst p); PyInt (snd p)]) pairs).
  split; [|split].
  - f_equal. rewrite map_map. reflexivity.
  - rewrite length_map. exact Hlen.
  - intros row Hrow. apply list_elem_of_fmap in Hrow as (p & -> & _).
    exists (fst p), (snd p). reflexivity.
Qed.

(** What the reducer hands to the builder for a valid trajectory. *)
Lemma output_shape_inputs {State : Type}
    (get_by_path : State -> list string -> result ndarray) (self : GeoPlot)
    (state_trajectory : list (list State)) (E : nat) :
  valid_trajectory get_by_path self state_trajectory E ->
  exists st1 rows,
    reduce_trajectory get_by_path self state_trajectory initial_locals = Ok st1
    /\ coords st1 = PyList rows
    /\ length rows = E
    /\ length (values st1) = (length state_trajectory - 1)%nat
    /\ (forall episode position property,
          state_trajectory !! (length state_trajectory - 2)%nat = Some episode ->
          reads get_by_path self episode position property ->
          tolist position = PyList rows)
    /\ (forall j episode position property,
          (j < length state_trajectory - 1)%nat ->
          state_trajectory !! j = Some episode ->
          reads get_by_path self episode position property ->
          values st1 !! j = Some (PyList (map PyInt (ravel property))))
    /\ forall ts, well_shaped rows (values st1) ts.
Proof.
  intros [Hlen Hvalid].
  destruct (reduce_prefix get_by_path self state_trajectory initial_locals
              (length state_trajectory - 1))
    as (st1 & Hrun & _ & _ & Hn & Hvals & Hcoords & _).
  { intros i Hi. destruct (lookup_lt_is_Some_2 state_trajectory i) as [ep Hep]; [lia|].
    destruct (Hvalid i ep Hi Hep) as (p & f & Hrd & _). exists ep, p, f. auto. }
  simpl in Hn.
  destruct (lookup_lt_is_Some_2 state_trajectory (length state_trajectory - 2))
    as [ep Hep]; [lia|].
  destruct (Hvalid (length state_trajectory - 2)%nat ep) as (pos & prop & Hrd & Hpos & _);
    [lia | exact Hep |].
  destruct (tolist_position_rows E pos Hpos) as (rows & Hrows & HE & Hpairs).
  assert (forall j episode position property,
            (j < length state_trajectory - 1)%nat ->
            state_trajectory !! j = Some episode ->
            reads get_by_path self episode position property ->
            values st1 !! j = Some (PyList (map PyInt (ravel property)))) as Hread.
  { intros j epj pj fj Hj Hepj Hrdj. rewrite <- tolist_flatten.
    apply (Hvals j epj pj fj Hj Hepj Hrdj). }
  exists st1, rows. unfold reduce_trajectory. rewrite reduce_trajectory_range.
  split; [exact Hrun|]. split; [|split; [exact HE|split; [exact Hn|split; [|split; [exact Hread|]]]]].
  - rewrite <- Hrows.
    apply (Hcoords (length state_trajectory - 2)%nat ep pos prop); [lia | assumption..].
  - intros ep' pos' prop' Hep' Hrd'. rewrite Hep in Hep'. injection Hep' as <-.
    destruct (reads_functional _ _ _ _ _ _ _ Hrd Hrd') as [<- _]. exact Hrows.
  - intros ts. split.
    + intros row Hrow. destruct (Hpairs row Hrow) as (lat & lon & ->).
      split; eexists; reflexivity.
    + intros j t vl i _ Hvl Hi.
      assert (j < length state_trajectory - 1)%nat as Hj.
      { rewrite <- Hn. eapply lookup_lt_Some, Hvl. }
      destruct (lookup_lt_is_Some_2 state_trajectory j) as [epj Hepj]; [lia|].
      destruct (Hvalid j epj Hj Hepj) as (pj & fj & Hrdj & _ & Hfj).
      rewrite (Hread j epj pj fj Hj Hepj Hrdj) in Hvl. injection Hvl as <-. simpl.
      destruct (lookup_lt_is_Some_2 (map PyInt (ravel fj)) i) as [v Hv].
      { rewrite length_map. lia. }
      rewrite Hv. eexists. reflexivity.
Qed.

(** C2 (amended) - Output cardinality.  For a valid trajectory with [E]
    entities and an engine whose [T] configured timestamps can all be computed
    from the start instant, the GeoJSON document has [E] FeatureCollections
    and each has min(T, number of episodes - 1) Features. *)
Theorem output_cardinality {State : Type}
    (get_by_path : State -> list string -> result ndarray) (self : GeoPlot)
    (state_trajectory : list (list State)) (start_time : Timestamp)
    (E T : nat) :
  valid_trajectory get_by_path self state_trajectory E ->
  slots_of self = Z.of_nat T ->
  slots_exist self start_time ->
  exists st,
    reshape get_by_path self state_trajectory start_time = Ok st
    /\ length (geojsons st) = E
    /\ forall doc, doc ∈ geojsons st ->
         exists features,
           features_of doc = Some features
           /\ length features = Nat.min T (length state_trajectory - 1).
Proof.
  intros Hvalid HT Hexist.
  destruct (output_shape_inputs get_by_path self state_trajectory E Hvalid)
    as (st1 & rows & Hrun & Hc & HE & Hn & _ & _ & Hshape).
  destruct (generate_timestamps_Ok self start_time st1 Hexist) as (ts & Hgen & Hall).
  destruct (build_geojsons_spec rows (values st1) ts (geojsons st1) (Hshape ts))
    as (docs & Hbuild & Hdocs).
  exists (Locals (PyList rows) (values st1) ts docs). split; [|split].
  - unfold reshape. rewrite Hrun. simpl. rewrite Hgen. simpl.
    rewrite Hc. exact Hbuild.
  - simpl. rewrite <- (Forall2_length _ _ _ Hdocs), length_enumerate. exact HE.
  - simpl. intros doc Hdoc. apply list_elem_of_lookup in Hdoc as [i Hi].
    destruct (lookup_lt_is_Some_2 rows i) as [row Hrow].
    { rewrite <- (length_enumerate rows), (Forall2_length _ _ _ Hdocs).
      eapply lookup_lt_Some, Hi. }
    destruct (collection_lookup rows (values st1) docs ts i row Hdocs Hrow)
      as (features & Hdoc & Hcount & _).
    rewrite Hi in Hdoc. injection Hdoc as ->.
    exists features. split; [reflexivity|].
    rewrite Hcount, Hn, <- (Forall2_length _ _ _ Hall), length_range, HT, Nat2Z.id.
    reflexivity.
Qed.

Lemma demo_reads_engine (step : pyobj) (episodes steps : Z) (money_spent : list Z) :
  reads snapshot_get_by_path (demo_engine step episodes steps)
        [consumers [[1; 2]; [3; 4]] money_spent]
        (matrix [[1; 2]; [3; 4]]) (matrix (map (fun x => [x]) money_spent)).
Proof. eexists. repeat split; reflexivity. Qed.

Lemma demo_valid_engine (step : pyobj) (episodes steps : Z) :
  valid_trajectory snapshot_get_by_path (demo_engine step episodes steps)
                   demo_trajectory 2.
Proof.
  split; [simpl; lia|]. intros i ep Hi Hep.
  destruct i as [|[|i]]; simpl in Hi, Hep; [| |lia]; injection Hep as <-;
    eexists; eexists; (split; [apply demo_reads_engine|]);
    (split; [exists [(1, 2); (3, 4)]; split; reflexivity | reflexivity]).
Qed.

(** C2 - counterexample.  The demo trajectory is valid, but with two slots
    and a step of 10^10 seconds the second timestamp cannot be computed: the
    reshaping raises and there is no document to count. *)
Lemma every_valid_trajectory_is_counted_fails : ~ every_valid_trajectory_is_counted.
Proof.
  intros Hclaim.
  destruct (Hclaim snapshot snapshot_get_by_path overflow_engine demo_trajectory
              0 2%nat 2%nat) as (st & Hrun & _);
    [apply demo_valid_engine | reflexivity |].
  vm_compute in Hrun. discriminate.
Qed.

(** ** Instances *)

Lemma is_Ok_true {A} (m : result A) : is_Ok m = true -> exists a, m = Ok a.
Proof. destruct m as [a|e]; [exists a; reflexivity | discriminate]. Qed.

Lemma well_shaped_check (rows values : list pyval) (timestamps : list Timestamp) :
  well_shapedb rows values timestamps = true -> well_shaped rows values timestamps.
Proof.
  unfold well_shapedb. intros H. apply andb_prop in H as [Hrows Hvals].
  rewrite forallb_forall in Hrows. rewrite forallb_forall in Hvals. split.
  - intros row Hrow. apply list_elem_of_In in Hrow.
    apply Hrows, andb_prop in Hrow as [H0 H1].
    split; apply is_Ok_true; assumption.
  - intros j t vl i Ht Hvl Hi. apply is_Ok_true.
    assert (In (t, vl) (zip timestamps values)) as Hpair.
    { apply list_elem_of_In, list_elem_of_lookup. exists j.
      apply lookup_zip_with_Some. exists t, vl. auto. }
    apply Hvals in Hpair. rewrite forallb_forall in Hpair.
    apply (Hpair i), in_seq. lia.
Qed.


Lemma coordinate_round_trip_witness :
  well_shaped [PyList [PyInt 10; PyInt 20]] [PyList [PyInt 7]] [0]
  /\ exists docs features,
       build_geojsons (Locals (PyList [PyList [PyInt 10; PyInt 20]])
                              [PyList [PyInt 7]] [0] [])
       = Ok (Locals (PyList [PyList [PyInt 10; PyInt 20]]) [PyList [PyInt 7]] [0] docs)
       /\ docs !! O = Some (FeatureCollection features)
       /\ length features = 1%nat
       /\ forall f, f ∈ features ->
            field ["geometry"; "coordinates"] f = Some (PyList [PyInt 20; PyInt 10]).
Proof.
  assert (well_shaped [PyList [PyInt 10; PyInt 20]] [PyList [PyInt 7]] [0]) as Hshape.
  { apply well_shaped_check. reflexivity. }
  split; [exact Hshape|].
  apply (coordinate_round_trip [PyList [PyInt 10; PyInt 20]] [PyList [PyInt 7]] [0]
           O (PyInt 10) (PyInt 20) Hshape).
  reflexivity.
Defined.

Lemma demo_reads (money_spent : list Z) :
  reads snapshot_get_by_path (demo_engine (OInt 3600) 3 1)
        [consumers [[1; 2]; [3; 4]] money_spent]
        (matrix [[1; 2]; [3; 4]]) (matrix (map (fun x => [x]) money_spent)).
Proof. eexists. repeat split; reflexivity. Qed.

Lemma demo_valid :
  valid_trajectory snapshot_get_by_path (demo_engine (OInt 3600) 3 1)
                   demo_trajectory 2.
Proof.
  split; [simpl; lia|]. intros i ep Hi Hep.
  destruct i as [|[|i]]; simpl in Hi, Hep; [| |lia]; injection Hep as <-;
    eexists; eexists; (split; [apply demo_reads|]);
    (split; [exists [(1, 2); (3, 4)]; split; reflexivity | reflexivity]).
Qed.

Lemma demo_slots_exist (start_time : Timestamp) :
  start_time + nanoseconds 7200 <= int64_max ->
  slots_exist (demo_engine (OInt 3600) 3 1) start_time.
Proof.
  intros Hsum.
  apply (slots_exist_int (demo_engine (OInt 3600) 3 1) start_time 3600);
    [reflexivity | lia | vm_compute; discriminate | exact Hsum].
Qed.

Lemma output_cardinality_witness :
  valid_trajectory snapshot_get_by_path (demo_engine (OInt 3600) 3 1)
                   demo_trajectory 2
  /\ slots_exist (demo_engine (OInt 3600) 3 1) 0
  /\ exists st,
       reshape snapshot_get_by_path (demo_engine (OInt 3600) 3 1) demo_trajectory 0
       = Ok st
       /\ length (geojsons st) = 2%nat
       /\ forall doc, doc ∈ geojsons st ->
            exists features,
              features_of doc = Some features /\ length features = 2%nat.
Proof.
  assert (slots_exist (demo_engine (OInt 3600) 3 1) 0) as Hexist.
  { apply demo_slots_exist. vm_compute. discriminate. }
  split; [exact demo_valid|]. split; [exact Hexist|].
  apply (output_cardinality snapshot_get_by_path (demo_engine (OInt 3600) 3 1)
           demo_trajectory 0 2 3 demo_valid eq_refl Hexist).
Defined.

Lemma reducer_behavior_witness :
  (2 <= length demo_trajectory)%nat
  /\ exists st,
       reduce_trajectory snapshot_get_by_path (demo_engine (OInt 3600) 3 1)
                         demo_trajectory initial_locals = Ok st
       /\ length (values st) = 2%nat.
Proof.
  assert (2 <= length demo_trajectory)%nat as Hlen by (simpl; lia).
  split; [exact Hlen|].
  destruct (reducer_behavior snapshot_get_by_path (demo_engine (OInt 3600) 3 1)
              demo_trajectory Hlen) as (st & Hrun & Hn & _).
  - intros i ep Hi Hep. destruct demo_valid as [_ Hvalid].
    destruct (Hvalid i ep Hi Hep) as (p & f & Hrd & _). exists p, f. exact Hrd.
  - exists st. split; [exact Hrun | exact Hn].
Defined.


Lemma same_instant_same_bytes_witness :
  clock fresh_world = clock stale_world
  /\ exists bytes,
       files (fst (render snapshot_get_by_path (demo_engine (OInt 3600) 3 1)
                     demo_trajectory fresh_world))
         !! geodata_path (demo_engine (OInt 3600) 3 1) = Some bytes
       /\ files (fst (render snapshot_get_by_path (demo_engine (OInt 3600) 3 1)
                        demo_trajectory stale_world))
            !! geodata_path (demo_engine (OInt 3600) 3 1) = Some bytes.
Proof.
  assert (clock fresh_world = clock stale_world) as Hclock by reflexivity.
  split; [exact Hclock|].
  destruct (same_instant_same_bytes snapshot_get_by_path
              (demo_engine (OInt 3600) 3 1) demo_trajectory fresh_world
              stale_world Hclock)
    as [(bytes & H1 & H2 & _) | (e & H1 & _)].
  - exists bytes. split; [exact H1 | exact H2].
  - exfalso. apply (f_equal snd) in H1. vm_compute in H1. discriminate.
Defined.

Lemma fewer_than_two_episodes_witness :
  (length short_trajectory <= 1)%nat
  /\ slots_exist (demo_engine (OInt 3600) 3 1) (clock fresh_world)
  /\ snd (render snapshot_get_by_path (demo_engine (OInt 3600) 3 1)
            short_trajectory fresh_world) = Ok tt
  /\ files (fst (render snapshot_get_by_path (demo_engine (OInt 3600) 3 1)
                   short_trajectory fresh_world))
       !! geodata_path (demo_engine (OInt 3600) 3 1) = Some "[]".
Proof.
  assert (length short_trajectory <= 1)%nat as Hlen by (simpl; lia).
  assert (slots_exist (demo_engine (OInt 3600) 3 1) (clock fresh_world)) as Hexist.
  { apply demo_slots_exist. vm_compute. discriminate. }
  split; [exact Hlen|]. split; [exact Hexist|].
  destruct (fewer_than_two_episodes snapshot_get_by_path
              (demo_engine (OInt 3600) 3 1) short_trajectory
              fresh_world Hlen) as (st & _ & _ & Hres & Hfile);
    [reflexivity | exact Hexist | eexists; reflexivity | eexists; reflexivity |].
  split; [exact Hres | exact Hfile].
Defined.

Lemma paired_short_vector_raises_witness :
  (length [PyInt 10] < length demo_rows)%nat
  /\ raises (build_geojsons (Locals (PyList demo_rows) [PyList [PyInt 10]] [0] [])).
Proof.
  assert (length [PyInt 10] < length demo_rows)%nat as Hshort by (simpl; lia).
  split; [exact Hshort|].
  apply (paired_short_vector_raises demo_rows [PyList [PyInt 10]] [0] [] O 0
           [PyInt 10]); [reflexivity | reflexivity | exact Hshort].
Defined.

Lemma construction_fails_fast_witness :
  partial_options !! "step_time" = None
  /\ exists missing,
       __init__ (config (demo_engine ONone 1 1)) partial_options
       = Raise (KeyError missing).
Proof.
  assert (partial_options !! "step_time" = None) as Hnone by reflexivity.
  split; [exact Hnone|].
  destruct (construction_fails_fast (config (demo_engine ONone 1 1))
              partial_options "step_time") as (missing & Hraise & _);
    [in_list | exact Hnone |].
  exists missing. exact Hraise.
Defined.

Lemma construction_accepts_any_values_witness :
  odd_options !! "step_time" = Some (OInt 0)
  /\ odd_options !! "visualization_type" = Some (OStr "heat")
  /\ is_Ok (__init__ (config (demo_engine ONone 2 2)) odd_options) = true.
Proof.
  split; [reflexivity|]. split; [reflexivity|].
  destruct (construction_accepts_any_values (config (demo_engine ONone 2 2))
              odd_options ONone (OInt 0) (OStr "agents/consumers/coordinates")
              (OStr "agents/consumers/money_spent") (OStr "heat")
              eq_refl eq_refl eq_refl eq_refl eq_refl)
    as [Hinit _].
  rewrite Hinit. reflexivity.
Defined.

(** ** Further properties: paths and construction *)

Lemma re_split_nonempty (sep : ascii) (s : string) : re_split sep s <> [].
Proof.
  destruct s as [|c rest]; simpl; [discriminate|].
  destruct (Ascii.eqb c sep); [discriminate|].
  destruct (re_split sep rest); discriminate.
Qed.

Lemma join_re_split (sep : ascii) (s : string) :
  join (String sep EmptyString) (re_split sep s) = s.
Proof.
  induction s as [|c rest IH]; simpl; [reflexivity|].
  destruct (Ascii.eqb_spec c sep) as [->|Hne].
  - pose proof (re_split_nonempty sep rest) as Hne.
    destruct (re_split sep rest) as [|seg segs]; [contradiction|].
    simpl. simpl in IH. rewrite IH. reflexivity.
  - pose proof (re_split_nonempty sep rest) as Hnil.
    destruct (re_split sep rest) as [|seg segs]; [contradiction|].
    simpl in IH. destruct segs as [|seg' segs]; simpl in *; rewrite <- IH; reflexivity.
Qed.

Lemma re_split_segments (sep : ascii) (s : string) :
  Forall (fun seg => occurs sep seg = false) (re_split sep s).
Proof.
  induction s as [|c rest IH]; simpl.
  - constructor; [reflexivity | constructor].
  - destruct (Ascii.eqb c sep) eqn:Hc.
    + constructor; [reflexivity | exact IH].
    + destruct (re_split sep rest) as [|seg segs].
      * constructor; [simpl; rewrite Hc; reflexivity | constructor].
      * inversion IH as [|? ? Hseg Hsegs]; subst.
        constructor; [simpl; rewrite Hc; exact Hseg | exact Hsegs].
Qed.

(** X1 - [read_var] hands the accessor the segments of the configured path:
    joined by slashes they give the path back, and none of them holds a
    slash; a path that is not a string raises [TypeError] without the
    accessor being asked. *)
Theorem read_var_segments {State : Type}
    (get_by_path : State -> list string -> result ndarray) (state : State) :
  (forall path,
     exists segments,
       read_var get_by_path state (OStr path) = get_by_path state segments
       /\ join "/" segments = path
       /\ Forall (fun seg => occurs "/" seg = false) segments)
  /\ read_var get_by_path state ONone = Raise TypeError
  /\ (forall z, read_var get_by_path state (OInt z) = Raise TypeError).
Proof.
  split; [|split; reflexivity].
  intros path. exists (re_split "/" path). split; [reflexivity|].
  split; [apply join_re_split | apply re_split_segments].
Qed.

(** X2 - The constructor reports the first missing key, in the order
    cesium_token, step_time, coordinates, feature, visualization_type: if the
    keys before [k] in that order are bound and [k] is not, the exception is
    [KeyError k], whatever is bound after it. *)
Theorem init_reports_first_missing (cfg : simulation_metadata)
    (options : gmap string pyobj) (before after : list string) (k : string) :
  required_options = (before ++ k :: after)%list ->
  (forall k', k' ∈ before -> is_Some (options !! k')) ->
  options !! k = None ->
  __init__ cfg options = Raise (KeyError k).
Proof.
  unfold required_options. intros Horder Hbefore Hnone.
  unfold __init__, option_get.
  repeat (destruct before as [|? before]; simpl in Horder;
          [injection Horder as <- _; rewrite ?Hnone |
           injection Horder as <- Horder;
           match goal with
           | |- context [options !! ?key] =>
               destruct (Hbefore key) as [? ->]; [in_list | simpl]
           end]); try reflexivity.
  destruct before; discriminate.
Qed.

(** X3 - The constructor looks at the five required keys only: binding any
    other key changes neither the engine it returns nor the exception it
    raises. *)
Theorem init_ignores_other_keys (cfg : simulation_metadata)
    (options : gmap string pyobj) (k : string) (v : pyobj) :
  k ∉ required_options ->
  __init__ cfg (<[k := v]> options) = __init__ cfg options.
Proof.
  intros Hk. unfold __init__, option_get.
  assert (forall key, key ∈ required_options ->
          <[k := v]> options !! key = options !! key) as Hsame.
  { intros key Hkey. apply lookup_insert_ne. intros ->. contradiction. }
  rewrite !Hsame by (unfold required_options; in_list). reflexivity.
Qed.

(** ** Further properties: what a render leaves behind *)

(** X5 - With no configured timestamp slot (num_episodes *
    num_steps_per_episode is not positive) a render whose reshaping returns
    still raises: it writes the .geojson file, whose FeatureCollections are
    all empty, empties the .html file, and then raises [IndexError] on the
    first timestamp. *)
Theorem render_without_slots {State : Type}
    (get_by_path : State -> list string -> result ndarray) (self : GeoPlot)
    (state_trajectory : list (list State)) (w : world) (st : locals) :
  slots_of self <= 0 ->
  reshape get_by_path self state_trajectory (clock w) = Ok st ->
  snd (render get_by_path self state_trajectory w) = Raise IndexError
  /\ files (fst (render get_by_path self state_trajectory w)) !! geoplot_path self
     = Some EmptyString
  /\ files (fst (render get_by_path self state_trajectory w)) !! geodata_path self
     = Some (utf8 (json_dumps (Some 2%nat) false (PyList (geojsons st))))
  /\ forall doc, doc ∈ geojsons st -> doc = FeatureCollection [].
Proof.
  intros Hslots Hreshape.
  assert (timestamps st = []) as Hts.
  { pose proof (reshape_timestamps _ _ _ _ _ Hreshape) as Hall.
    rewrite (range_nonpositive _ Hslots) in Hall. inversion Hall. reflexivity. }
  split; [|split; [|split]].
  - unfold render. rewrite Hreshape. unfold page_mapping. rewrite Hts. reflexivity.
  - unfold render. rewrite Hreshape. unfold page_mapping. rewrite Hts. simpl.
    apply lookup_insert_eq.
  - apply (render_writes_geojson get_by_path self state_trajectory w st Hreshape).
  - destruct (reshape_inv _ _ _ _ _ Hreshape) as (st1 & st2 & _ & _ & Hbuild).
    destruct (build_geojsons_frame _ _ Hbuild) as (_ & _ & Hts2).
    rewrite Hts in Hts2. symmetry in Hts2.
    unfold build_geojsons in Hbuild.
    destruct (iter (coords st2)) as [rows|e]; simpl in Hbuild; [|discriminate].
    assert (timestamps st = []
            /\ forall doc, doc ∈ geojsons st -> doc = FeatureCollection []) as [_ H];
      [|exact H].
    revert Hbuild.
    apply (for_each_invariant
             (fun s => timestamps s = []
                       /\ forall doc, doc ∈ geojsons s -> doc = FeatureCollection [])).
    + intros s x s' [Hs Hdocs]. unfold append_collection. rewrite Hs. simpl.
      intros [= <-]. simpl. split; [reflexivity|].
      intros doc Hdoc. apply elem_of_app in Hdoc as [Hdoc|Hdoc]; [auto|].
      apply list_elem_of_singleton in Hdoc. exact Hdoc.
    + simpl. split; [exact Hts2|]. intros doc Hdoc. inversion Hdoc.
Qed.



(** X8 - A [step_time] that is [None] or a string, which the constructor
    accepts, is found out at the first timestamp: with at least one
    configured slot, once the episodes have been reduced the render raises
    [TypeError] and leaves the clock and every file as they were. *)
Theorem render_rejects_step {State : Type}
    (get_by_path : State -> list string -> result ndarray) (self : GeoPlot)
    (state_trajectory : list (list State)) (w : world) (st : locals) :
  step_time self = ONone \/ (exists text, step_time self = OStr text) ->
  0 < slots_of self ->
  reduce_trajectory get_by_path self state_trajectory initial_locals = Ok st ->
  render get_by_path self state_trajectory w = (w, Raise TypeError).
Proof.
  intros Hstep Hslots Hreduce. apply render_raises_early.
  unfold reshape. rewrite Hreduce. simpl. unfold generate_timestamps.
  destruct (range_positive _ Hslots) as [rest Hrange].
  unfold slots_of in Hrange. rewrite Hrange. simpl.
  destruct Hstep as [->|[text ->]]; reflexivity.
Qed.

(** X9 - An episode other than the last that has no step makes the render
    raise before anything is written: the clock and every file are left as
    they were. *)
Theorem render_rejects_empty_episode {State : Type}
    (get_by_path : State -> list string -> result ndarray) (self : GeoPlot)
    (state_trajectory : list (list State)) (w : world) (i : nat) :
  (i < length state_trajectory - 1)%nat ->
  state_trajectory !! i = Some [] ->
  exists e, render get_by_path self state_trajectory w = (w, Raise e).
Proof.
  intros Hi Hempty.
  assert (raises (reduce_trajectory get_by_path self state_trajectory initial_locals))
    as [e He].
  { unfold reduce_trajectory.
    apply (for_each_raises (fun _ => True) _ _ i (Z.of_nat i)); auto.
    - apply lookup_range. split; [reflexivity | lia].
    - intros s _. exists IndexError. unfold reduce_episode, list_getitem.
      rewrite Nat2Z.id, Hempty. reflexivity. }
  exists e. apply render_raises_early. unfold reshape. rewrite He. reflexivity.
Qed.

(** ** Further properties: what a render reads *)

(** X10 - [render] reads the final step of every episode but the last and
    nothing else of the trajectory: two trajectories of the same length whose
    episodes other than the last end in the same snapshots give the same
    files and the same outcome. *)
Theorem render_reads_final_steps {State : Type}
    (get_by_path : State -> list string -> result ndarray) (self : GeoPlot)
    (trajectory trajectory' : list (list State)) (w : world) :
  length trajectory = length trajectory' ->
  (forall i episode episode',
     (i < length trajectory - 1)%nat ->
     trajectory !! i = Some episode -> trajectory' !! i = Some episode' ->
     last episode = last episode') ->
  render get_by_path self trajectory w = render get_by_path self trajectory' w.
Proof.
  intros Hlen Hlast.
  assert (forall st, reduce_trajectory get_by_path self trajectory st
                     = reduce_trajectory get_by_path self trajectory' st) as Hreduce.
  { intros st. unfold reduce_trajectory. rewrite <- Hlen.
    apply for_each_ext. intros x s Hx.
    apply list_elem_of_lookup in Hx as [i Hx].
    apply lookup_range in Hx as [-> Hi].
    destruct (lookup_lt_is_Some_2 trajectory i) as [ep Hep]; [lia|].
    destruct (lookup_lt_is_Some_2 trajectory' i) as [ep' Hep']; [lia|].
    unfold reduce_episode, list_getitem, last_item.
    rewrite Nat2Z.id, Hep, Hep'. simpl.
    rewrite (Hlast i ep ep') by (lia || assumption). reflexivity. }
  unfold render, reshape. rewrite Hreduce. reflexivity.
Qed.

Lemma for_each_collect_eq {X Y} (g : X -> result Y) (xs : list X) (acc : list Y) :
  for_each (fun acc x => y ← g x; Ok (acc ++ [y])%list) xs acc
  = (ys ← mapM g xs; Ok (acc ++ ys)%list).
Proof.
  revert acc. induction xs as [|x xs IH]; intros acc; simpl.
  - rewrite app_nil_r. reflexivity.
  - destruct (g x) as [y|e]; simpl; [|reflexivity].
    rewrite IH. destruct (mapM g xs) as [ys|e]; simpl; [|reflexivity].
    rewrite <- app_assoc. reflexivity.
Qed.

Lemma append_collection_eq (st : locals) (entity : nat * pyval) :
  append_collection st entity
  = (doc ← collection (timestamps st) (values st) entity;
     Ok (Locals (coords st) (values st) (timestamps st) (geojsons st ++ [doc])%list)).
Proof.
  unfold append_collection, collection, append_feature.
  rewrite (for_each_collect_eq
             (fun pair => feature (fst entity) (snd entity) (fst pair) (snd pair))).
  destruct (mapM _ _) as [fs|e]; reflexivity.
Qed.

Lemma append_collection_loop_eq (c : pyval) (vals : list pyval) (ts : list Timestamp)
    (entities : list (nat * pyval)) (g : list pyval) :
  for_each append_collection entities (Locals c vals ts g)
  = (docs ← mapM (collection ts vals) entities;
     Ok (Locals c vals ts (g ++ docs)%list)).
Proof.
  revert g. induction entities as [|e entities IH]; intros g; simpl.
  - rewrite app_nil_r. reflexivity.
  - rewrite append_collection_eq. simpl.
    destruct (collection ts vals e) as [doc|err]; simpl; [|reflexivity].
    rewrite IH. destruct (mapM _ entities) as [docs|err]; simpl; [|reflexivity].
    rewrite <- app_assoc. reflexivity.
Qed.

Lemma mapM_ext {X Y} (f g : X -> result Y) (xs : list X) :
  (forall x, x ∈ xs -> f x = g x) -> mapM f xs = mapM g xs.
Proof.
  induction xs as [|x xs IH]; intros Hext; simpl; [reflexivity|].
  rewrite (Hext x) by left. rewrite IH; [reflexivity|].
  intros x' Hx'. apply Hext. right. exact Hx'.
Qed.

Lemma mapM_Forall2 {X X' Y} (f : X -> result Y) (g : X' -> result Y)
    (xs : list X) (ys : list X') :
  Forall2 (fun x y => f x = g y) xs ys -> mapM f xs = mapM g ys.
Proof.
  induction 1 as [|x y xs ys Hxy _ IH]; simpl; [reflexivity|].
  rewrite Hxy, IH. reflexivity.
Qed.

Lemma zip_Forall2 {A B} (R : B -> B -> Prop) (ts : list A) (vals vals' : list B) :
  Forall2 R vals vals' ->
  Forall2 (fun p p' => fst p = fst p' /\ R (snd p) (snd p')) (zip ts vals) (zip ts vals').
Proof.
  intros H. revert ts. induction H as [|v v' vals vals' Hv _ IH]; intros ts.
  - destruct ts; constructor.
  - destruct ts as [|t ts]; simpl; [constructor|].
    constructor; [simpl; auto | apply IH].
Qed.

(** X11 - The builder reads of each feature vector the entries at the entity
    indices only: two lists of feature vectors that agree there give the same
    document or the same exception, so entries beyond the number of entities
    are dropped without notice. *)
Theorem builder_reads_entity_entries (rows vals vals' : list pyval)
    (ts : list Timestamp) (g : list pyval) :
  Forall2 (fun v v' => forall i, (i < length rows)%nat -> getitem v i = getitem v' i)
          vals vals' ->
  (geojsons <$> build_geojsons (Locals (PyList rows) vals ts g))
  = (geojsons <$> build_geojsons (Locals (PyList rows) vals' ts g)).
Proof.
  intros Hagree. unfold build_geojsons. simpl.
  rewrite !append_collection_loop_eq.
  assert (mapM (collection ts vals) (enumerate rows)
          = mapM (collection ts vals') (enumerate rows)) as ->.
  { apply mapM_ext. intros [i row] He.
    apply list_elem_of_lookup in He as [i' He].
    apply lookup_enumerate in He as [Hi Hrow]. simpl in Hi, Hrow. subst i'.
    apply lookup_lt_Some in Hrow.
    unfold collection. simpl.
    rewrite (mapM_Forall2 (fun pair => feature i row (fst pair) (snd pair))
               (fun pair => feature i row (fst pair) (snd pair))
               (zip ts vals) (zip ts vals')); [reflexivity|].
    eapply Forall2_impl; [apply zip_Forall2, Hagree|].
    intros [t v] [t' v'] [Ht Hv]. simpl in *. subst t'.
    unfold feature. rewrite (Hv i Hrow). reflexivity. }
  destruct (mapM _ _) as [docs|e]; reflexivity.
Qed.

(** ** Further properties: from trajectory to document *)

(** The reshaping of a valid trajectory with a step of whole seconds, in
    closed form. *)
Lemma reshape_valid {State : Type}
    (get_by_path : State -> list string -> result ndarray) (self : GeoPlot)
    (state_trajectory : list (list State)) (start_time : Timestamp)
    (E : nat) (s : Z) :
  valid_trajectory get_by_path self state_trajectory E ->
  step_time self = OInt s ->
  slots_exist self start_time ->
  exists rows vals docs,
    reshape get_by_path self state_trajectory start_time
    = Ok (Locals (PyList rows) vals
            (map (fun i => start_time + nanoseconds (i * s)) (range (slots_of self)))
            docs)
    /\ (forall episode position property,
          state_trajectory !! (length state_trajectory - 2)%nat = Some episode ->
          reads get_by_path self episode position property ->
          tolist position = PyList rows)
    /\ (forall j episode position property,
          (j < length state_trajectory - 1)%nat ->
          state_trajectory !! j = Some episode ->
          reads get_by_path self episode position property ->
          vals !! j = Some (PyList (map PyInt (ravel property))))
    /\ Forall2 (collection_for
                  (map (fun i => start_time + nanoseconds (i * s)) (range (slots_of self)))
                  vals)
               (enumerate rows) docs.
Proof.
  intros Hvalid Hs Hexist.
  destruct (output_shape_inputs get_by_path self state_trajectory E Hvalid)
    as (st1 & rows & Hrun & Hc & _ & _ & Hpos & Hvals & Hshape).
  destruct (build_geojsons_spec rows (values st1)
              (map (fun i => start_time + nanoseconds (i * s)) (range (slots_of self)))
              (geojsons st1) (Hshape _))
    as (docs & Hbuild & Hdocs).
  exists rows, (values st1), docs. split; [|split; [|split]].
  - unfold reshape. rewrite Hrun. simpl.
    rewrite (generate_timestamps_int _ _ _ s Hs Hexist). simpl. rewrite Hc.
    exact Hbuild.
  - exact Hpos.
  - exact Hvals.
  - exact Hdocs.
Qed.

(** X12 - From trajectory to document.  For a valid trajectory and a step of
    [s] whole seconds whose configured timestamps can all be computed, the
    value that entity [i] has in the final snapshot of episode [j] (an
    episode other than the last, with [j] below the number of configured
    slots) is the value of the [j]-th Feature of the [i]-th FeatureCollection;
    that Feature is stamped [j * s] seconds after the instant of the call,
    whatever num_steps_per_episode is, carries the id [str(i)], and has the
    coordinates, longitude first, that entity [i] has in the episode before
    the last. *)
Theorem episode_lands_in_slot {State : Type}
    (get_by_path : State -> list string -> result ndarray) (self : GeoPlot)
    (state_trajectory : list (list State)) (start_time : Timestamp)
    (E : nat) (s : Z) (i j : nat) (episode final_episode : list State)
    (position property final_position final_property : ndarray) (lat lon v : Z) :
  valid_trajectory get_by_path self state_trajectory E ->
  step_time self = OInt s ->
  slots_exist self start_time ->
  (j < length state_trajectory - 1)%nat ->
  Z.of_nat j < slots_of self ->
  state_trajectory !! j = Some episode ->
  reads get_by_path self episode position property ->
  ravel property !! i = Some v ->
  state_trajectory !! (length state_trajectory - 2)%nat = Some final_episode ->
  reads get_by_path self final_episode final_position final_property ->
  getitem (tolist final_position) i = Ok (PyList [PyInt lat; PyInt lon]) ->
  exists st doc features f,
    reshape get_by_path self state_trajectory start_time = Ok st
    /\ geojsons st !! i = Some doc
    /\ features_of doc = Some features
    /\ features !! j = Some f
    /\ field ["properties"; "id"] f = Some (PyStr (str_nat i))
    /\ field ["properties"; "value"] f = Some (PyInt v)
    /\ field ["properties"; "time"] f
       = Some (PyStr (isoformat (start_time + nanoseconds (Z.of_nat j * s))))
    /\ field ["geometry"; "coordinates"] f = Some (PyList [PyInt lon; PyInt lat]).
Proof.
  intros Hvalid Hs Hexist Hj Hslot Hep Hrd Hv Hfinal Hrdf Hrow.
  destruct (reshape_valid get_by_path self state_trajectory start_time E s
              Hvalid Hs Hexist)
    as (rows & vals & docs & Hrun & Hpos & Hvals & Hdocs).
  rewrite (Hpos final_episode final_position final_property Hfinal Hrdf) in Hrow.
  simpl in Hrow.
  destruct (rows !! i) as [row|] eqn:Hrows; [|discriminate].
  injection Hrow as ->.
  destruct (collection_lookup rows vals docs _ i _ Hdocs Hrows)
    as (features & Hdoc & _ & Hfeat).
  destruct (Hfeat j (start_time + nanoseconds (Z.of_nat j * s))
              (PyList (map PyInt (ravel property)))) as (f & Hf & Hmade).
  { apply lookup_slots. split; [reflexivity | lia]. }
  { apply (Hvals j episode position property Hj Hep Hrd). }
  destruct (feature_fields _ _ _ _ _ Hmade)
    as (lat' & lon' & v' & Hlat & Hlon & Hval & Hid & Hvalue & Htime & Hgeo).
  simpl in Hlat, Hlon, Hval. injection Hlat as <-. injection Hlon as <-.
  rewrite list_lookup_fmap, Hv in Hval. simpl in Hval. injection Hval as <-.
  eexists _, (FeatureCollection features), features, f.
  split; [exact Hrun|]. simpl. repeat split; assumption.
Qed.

(** ** Instances of the further properties *)

Lemma init_reports_first_missing_witness :
  partial_options !! "step_time" = None
  /\ __init__ (config (demo_engine ONone 1 1)) partial_options
     = Raise (KeyError "step_time").
Proof.
  assert (partial_options !! "step_time" = None) as Hnone by reflexivity.
  split; [exact Hnone|].
  apply (init_reports_first_missing _ _ ["cesium_token"] 
           ["coordinates"; "feature"; "visualization_type"] "step_time");
    [reflexivity | | exact Hnone].
  intros k' Hk'. apply list_elem_of_singleton in Hk' as ->.
  exists (OStr "token"). reflexivity.
Defined.

Lemma init_ignores_other_keys_witness :
  ("zoom" ∉ required_options)
  /\ __init__ (config (demo_engine ONone 1 1)) (<["zoom" := OInt 3]> odd_options)
     = __init__ (config (demo_engine ONone 1 1)) odd_options.
Proof.
  assert ("zoom" ∉ required_options) as Hk.
  { intros H. apply list_elem_of_In in H. simpl in H.
    repeat (destruct H as [H|H]; [discriminate|]). exact H. }
  split; [exact Hk|]. apply init_ignores_other_keys, Hk.
Defined.

Lemma render_without_slots_witness :
  slots_of (demo_engine (OInt 3600) 0 1) <= 0
  /\ snd (render snapshot_get_by_path (demo_engine (OInt 3600) 0 1)
            demo_trajectory fresh_world) = Raise IndexError
  /\ files (fst (render snapshot_get_by_path (demo_engine (OInt 3600) 0 1)
                   demo_trajectory fresh_world))
       !! geoplot_path (demo_engine (OInt 3600) 0 1) = Some EmptyString.
Proof.
  assert (slots_of (demo_engine (OInt 3600) 0 1) <= 0) as Hslots by (vm_compute; discriminate).
  split; [exact Hslots|].
  destruct (render_without_slots snapshot_get_by_path (demo_engine (OInt 3600) 0 1)
              demo_trajectory fresh_world zero_slot_locals Hslots)
    as (Hres & Hpage & _); [vm_compute; reflexivity|].
  split; [exact Hres | exact Hpage].
Defined.



Lemma render_rejects_step_witness :
  0 < slots_of (demo_engine (OStr "3600") 3 1)
  /\ render snapshot_get_by_path (demo_engine (OStr "3600") 3 1)
            short_trajectory fresh_world
     = (fresh_world, Raise TypeError).
Proof.
  assert (0 < slots_of (demo_engine (OStr "3600") 3 1)) as Hslots by reflexivity.
  split; [exact Hslots|].
  apply (render_rejects_step snapshot_get_by_path (demo_engine (OStr "3600") 3 1)
           short_trajectory fresh_world initial_locals);
    [right; eexists; reflexivity | exact Hslots | reflexivity].
Defined.

Lemma render_rejects_empty_episode_witness :
  demo_trajectory_gap !! 1%nat = Some []
  /\ exists e,
       render snapshot_get_by_path (demo_engine (OInt 3600) 3 1)
              demo_trajectory_gap fresh_world
       = (fresh_world, Raise e).
Proof.
  assert (demo_trajectory_gap !! 1%nat = Some []) as Hgap by reflexivity.
  split; [exact Hgap|].
  apply (render_rejects_empty_episode snapshot_get_by_path
           (demo_engine (OInt 3600) 3 1) demo_trajectory_gap fresh_world 1);
    [simpl; lia | exact Hgap].
Defined.

Lemma render_reads_final_steps_witness :
  length demo_trajectory = length demo_trajectory_longer
  /\ render snapshot_get_by_path (demo_engine (OInt 3600) 3 1)
            demo_trajectory fresh_world
     = render snapshot_get_by_path (demo_engine (OInt 3600) 3 1)
              demo_trajectory_longer fresh_world.
Proof.
  assert (length demo_trajectory = length demo_trajectory_longer) as Hlen
    by reflexivity.
  split; [exact Hlen|].
  apply (render_reads_final_steps snapshot_get_by_path
           (demo_engine (OInt 3600) 3 1) demo_trajectory demo_trajectory_longer
           fresh_world Hlen).
  intros i ep ep' Hi Hep Hep'.
  destruct i as [|[|i]]; simpl in Hi, Hep, Hep'; [| |lia];
    injection Hep as <-; injection Hep' as <-; reflexivity.
Defined.

Lemma builder_reads_entity_entries_witness :
  length demo_values = length demo_values_surplus
  /\ (geojsons <$> build_geojsons (Locals (PyList demo_rows) demo_values demo_slots []))
     = (geojsons <$> build_geojsons
                       (Locals (PyList demo_rows) demo_values_surplus demo_slots [])).
Proof.
  split; [reflexivity|].
  apply (builder_reads_entity_entries demo_rows demo_values demo_values_surplus
           demo_slots []).
  repeat constructor; intros i Hi;
    (destruct i as [|[|i]]; [reflexivity | reflexivity | simpl in Hi; lia]).
Defined.

Lemma episode_lands_in_slot_witness :
  valid_trajectory snapshot_get_by_path (demo_engine (OInt 3600) 3 1)
                   demo_trajectory 2
  /\ slots_exist (demo_engine (OInt 3600) 3 1) 0
  /\ exists st doc features f,
       reshape snapshot_get_by_path (demo_engine (OInt 3600) 3 1) demo_trajectory 0
       = Ok st
       /\ geojsons st !! 1%nat = Some doc
       /\ features_of doc = Some features
       /\ features !! 1%nat = Some f
       /\ field ["properties"; "id"] f = Some (PyStr (str_nat 1))
       /\ field ["properties"; "value"] f = Some (PyInt 40)
       /\ field ["properties"; "time"] f
          = Some (PyStr (isoformat (0 + nanoseconds (Z.of_nat 1 * 3600))))
       /\ field ["geometry"; "coordinates"] f = Some (PyList [PyInt 4; PyInt 3]).
Proof.
  assert (slots_exist (demo_engine (OInt 3600) 3 1) 0) as Hexist.
  { apply demo_slots_exist. vm_compute. discriminate. }
  split; [exact demo_valid|]. split; [exact Hexist|].
  apply (episode_lands_in_slot snapshot_get_by_path (demo_engine (OInt 3600) 3 1)
           demo_trajectory 0 2 3600 1 1
           [consumers [[1; 2]; [3; 4]] [30; 40]]
           [consumers [[1; 2]; [3; 4]] [30; 40]]
           (matrix [[1; 2]; [3; 4]]) (matrix [[30]; [40]])
           (matrix [[1; 2]; [3; 4]]) (matrix [[30]; [40]]) 3 4 40 demo_valid
           eq_refl Hexist);
    try reflexivity; try (simpl; lia); apply (demo_reads [30; 40]).
Defined.
